(** * HarmoniQ Insights widget backend: window resolver, performance
      calculator and report assembler of [main.py]

    The twelve endpoints of [main.py] are six copies of one table routine and
    six copies of one chart routine that differ only in the symbol basket and
    in the name of the label column.  The routines are embedded once and
    instantiated with the baskets of the source.

    Modelling choices:
    - numbers are IEEE 754 binary64 values (Rocq's primitive floats).  pandas
      hands out [numpy.float64] scalars, whose arithmetic does not raise
      (division by zero gives an infinity or NaN, a negative base under a
      fractional exponent gives NaN); the elapsed-years arithmetic is done on
      Python floats, whose division raises [ZeroDivisionError];
    - [round] on a [numpy.float64] is numpy's (scale, [rint], unscale), [round]
      on a Python float is the correctly rounded one;
    - C [pow] has its C99 Annex F values on special operands and is a
      parameter, [libm_pow], on ordinary ones;
    - dates follow the proleptic Gregorian calendar of Python's [datetime];
      the reference date is an argument of the endpoints, and instants are
      counted in microseconds;
    - the provider is a function from the symbol and the requested start date
      to a frame or an exception; of a frame only the index and the
      ["close"] column are kept;
    - strings are byte strings and [str.lower] acts on the ASCII letters (no
      other character lower-cases into a period token);
    - a chart endpoint returns the traces it adds to the figure: layout, theme
      and JSON encoding belong to [plotly_config] and plotly. *)

From Stdlib Require Import String Ascii ZArith List Sorted Bool Lia Floats.
Import ListNotations.
Local Open Scope Z_scope.

(** ** Exceptions *)

Inductive exception : Set :=
| ValueError
| OverflowError
| ZeroDivisionError
| IndexError
| KeyError
| ProviderError.

(** A result or a raised exception. *)
Inductive exc (A : Type) : Type :=
| Ok (a : A)
| Raise (e : exception).
Arguments Ok {A} a.
Arguments Raise {A} e.

Definition bind {A B : Type} (c : exc A) (k : A -> exc B) : exc B :=
  match c with
  | Ok a => k a
  | Raise e => Raise e
  end.

Notation "x <- c ;; k" := (bind c (fun x => k))
  (at level 61, c at next level, right associativity).

(** ** Binary64 helpers *)

Module Float64.

(** Quotient of [a] by [b > 0] rounded to the nearest integer, ties to even. *)
Definition rne_div (a b : Z) : Z :=
  let q := a / b in
  let r := a mod b in
  match (2 * r) ?= b with
  | Lt => q
  | Gt => q + 1
  | Eq => if Z.even q then q else q + 1
  end.

(** The binary64 value nearest to the integer [n] (ties to even); a zero
    result carries the sign [s]. *)
Definition of_int (s : bool) (n : Z) : float :=
  SF2Prim (binary_normalize prec emax n 0 s).

(** Python's [float(n)] for an [int] n. *)
Definition float_of_int (n : Z) : float := of_int false n.

(** C [rint] in the default rounding mode: nearest integer, ties to even,
    sign kept. *)
Definition rint (x : float) : float :=
  match Prim2SF x with
  | S754_finite s m e =>
      if 0 <=? e then x
      else
        let n := rne_div (Zpos m) (2 ^ (- e)) in
        of_int s (if s then - n else n)
  | _ => x
  end.

(** numpy's [power_of_ten]. *)
Definition power_of_ten (n : Z) : float := float_of_int (10 ^ n).

(** [round(x, decimals)] on a [numpy.float64] ([ndarray.round]): multiply by
    the power of ten, [rint], divide again. *)
Definition np_round (x : float) (decimals : Z) : float :=
  (rint (x * power_of_ten decimals) / power_of_ten decimals)%float.

(** The binary64 value nearest to [n / 10 ^ ndigits], with sign [s]. *)
Definition decimal_to_float (s : bool) (n : Z) (ndigits : Z) : float :=
  match n with
  | Zpos p =>
      SF2Prim (SF64div (S754_finite s p 0)
                       (S754_finite false (Z.to_pos (10 ^ ndigits)) 0))
  | _ => if s then neg_zero else zero
  end.

(** [round(x, ndigits)] on a Python [float] with [0 <= ndigits]: the exact
    value of [x] is rounded to [ndigits] decimals, ties to even, and the
    decimal is converted back to the nearest binary64 value; infinities and
    NaN round to themselves. *)
Definition py_round (x : float) (ndigits : Z) : float :=
  match Prim2SF x with
  | S754_finite s m e =>
      let n := if 0 <=? e then Zpos m * 2 ^ e * 10 ^ ndigits
               else rne_div (Zpos m * 10 ^ ndigits) (2 ^ (- e)) in
      decimal_to_float s n ndigits
  | _ => x
  end.

(** [x / y] on Python floats. *)
Definition py_truediv (x y : float) : exc float :=
  if is_zero y then Raise ZeroDivisionError else Ok (x / y)%float.

(** The float is an integer. *)
Definition is_integer (y : float) : bool :=
  match Prim2SF y with
  | S754_zero _ => true
  | S754_finite _ m e => (0 <=? e) || (Zpos m mod 2 ^ (- e) =? 0)
  | _ => false
  end.

(** The float is an odd integer. *)
Definition is_odd_integer (y : float) : bool :=
  match Prim2SF y with
  | S754_finite _ m e =>
      if 0 <=? e then (e =? 0) && Z.odd (Zpos m)
      else (Zpos m mod 2 ^ (- e) =? 0) && Z.odd (Zpos m / 2 ^ (- e))
  | _ => false
  end.

(** C [pow], which numpy calls for [**] on [float64] scalars.  The results on
    special operands are those of C99 Annex F.10.4.4 (IEEE 754-2008, 9.2.1);
    on a positive finite base and a finite non-zero exponent the value is the
    math library's, [libm_pow]. *)
Definition c_pow (libm_pow : float -> float -> float) (x y : float) : float :=
  if is_zero y then one
  else if (x =? one)%float then one
  else if is_nan x || is_nan y then nan
  else if is_infinity y then
    if (abs x =? one)%float then one
    else if (abs x <? one)%float
         then (if (y <? zero)%float then infinity else zero)
         else (if (y <? zero)%float then zero else infinity)
  else if is_zero x then
    if (y <? zero)%float
    then (if is_odd_integer y then (one / x)%float else infinity)
    else (if is_odd_integer y then x else zero)
  else if is_infinity x then
    if (x <? zero)%float
    then (if (y <? zero)%float
          then (if is_odd_integer y then neg_zero else zero)
          else (if is_odd_integer y then neg_infinity else infinity))
    else (if (y <? zero)%float then zero else infinity)
  else if (x <? zero)%float then
    if is_integer y
    then (if is_odd_integer y then (- libm_pow (- x) y)%float
          else libm_pow (- x)%float y)
    else nan
  else libm_pow x y.

End Float64.
Import Float64.

(** ** Calendar: Python's [datetime] *)

Module Calendar.

Definition MINYEAR := 1.
Definition MAXYEAR := 9999.
Definition MAXORDINAL := 3652059.

(** [_is_leap]. *)
Definition is_leap (y : Z) : bool :=
  (y mod 4 =? 0) && (negb (y mod 100 =? 0) || (y mod 400 =? 0)).

(** [_DAYS_IN_MONTH] and [_DAYS_BEFORE_MONTH], indexed from 1. *)
Definition DAYS_IN_MONTH (m : Z) : Z :=
  match m with
  | 1 => 31 | 2 => 28 | 3 => 31 | 4 => 30 | 5 => 31 | 6 => 30
  | 7 => 31 | 8 => 31 | 9 => 30 | 10 => 31 | 11 => 30 | 12 => 31
  | _ => -1
  end.

Definition DAYS_BEFORE_MONTH (m : Z) : Z :=
  match m with
  | 1 => 0 | 2 => 31 | 3 => 59 | 4 => 90 | 5 => 120 | 6 => 151
  | 7 => 181 | 8 => 212 | 9 => 243 | 10 => 273 | 11 => 304 | 12 => 334
  | _ => -1
  end.

(** [_days_in_month], [_days_before_year], [_days_before_month] and
    [_ymd2ord]: the ordinal of a day, 0001-01-01 being day 1. *)
Definition days_in_month (y m : Z) : Z :=
  if (m =? 2) && is_leap y then 29 else DAYS_IN_MONTH m.

Definition days_before_year (year : Z) : Z :=
  let y := year - 1 in
  y * 365 + y / 4 - y / 100 + y / 400.

Definition days_before_month (y m : Z) : Z :=
  DAYS_BEFORE_MONTH m + (if (2 <? m) && is_leap y then 1 else 0).

Definition ymd2ord (y m d : Z) : Z :=
  days_before_year y + days_before_month y m + d.

Definition DI400Y := 146097.
Definition DI100Y := 36524.
Definition DI4Y := 1461.

(** [_ord2ymd]: the year, month and day of an ordinal. *)
Definition ord2ymd (ordinal : Z) : Z * Z * Z :=
  let n := ordinal - 1 in
  let n400 := n / DI400Y in
  let n := n mod DI400Y in
  let year := n400 * 400 + 1 in
  let n100 := n / DI100Y in
  let n := n mod DI100Y in
  let n4 := n / DI4Y in
  let n := n mod DI4Y in
  let n1 := n / 365 in
  let n := n mod 365 in
  let year := year + n100 * 100 + n4 * 4 + n1 in
  if (n1 =? 4) || (n100 =? 4) then (year - 1, 12, 31)
  else
    let leapyear := (n1 =? 3) && (negb (n4 =? 24) || (n100 =? 3)) in
    let month := Z.shiftr (n + 50) 5 in
    let preceding :=
      DAYS_BEFORE_MONTH month + (if (2 <? month) && leapyear then 1 else 0) in
    if n <? preceding then
      let month := month - 1 in
      let preceding :=
        preceding
        - (DAYS_IN_MONTH month + (if (month =? 2) && leapyear then 1 else 0)) in
      (year, month, n - preceding + 1)
    else (year, month, n - preceding + 1).

(** A naive [datetime]. *)
Record datetime : Set := mk_datetime {
  year : Z;
  month : Z;
  day : Z;
  hour : Z;
  minute : Z;
  second : Z;
  microsecond : Z
}.

Definition valid_date (y m d : Z) : bool :=
  (MINYEAR <=? y) && (y <=? MAXYEAR) && (1 <=? m) && (m <=? 12)
  && (1 <=? d) && (d <=? days_in_month y m).

Definition valid_time (dt : datetime) : bool :=
  (0 <=? hour dt) && (hour dt <? 24) && (0 <=? minute dt) && (minute dt <? 60)
  && (0 <=? second dt) && (second dt <? 60)
  && (0 <=? microsecond dt) && (microsecond dt <? 1000000).

(** What [datetime.now()] can return. *)
Definition valid_datetime (dt : datetime) : bool :=
  valid_date (year dt) (month dt) (day dt) && valid_time dt.

(** [datetime(y, m, d)]: midnight of that day, [ValueError] when there is
    no such day. *)
Definition datetime_ymd (y m d : Z) : exc datetime :=
  if valid_date y m d then Ok (mk_datetime y m d 0 0 0 0)
  else Raise ValueError.

Definition toordinal (dt : datetime) : Z :=
  ymd2ord (year dt) (month dt) (day dt).

(** [dt - timedelta(days=n)]. *)
Definition sub_timedelta_days (dt : datetime) (n : Z) : exc datetime :=
  let days := toordinal dt - n in
  if (0 <? days) && (days <=? MAXORDINAL) then
    let '(y, m, d) := ord2ymd days in
    Ok (mk_datetime y m d (hour dt) (minute dt) (second dt) (microsecond dt))
  else Raise OverflowError.

(** [(a - b).days]: the difference is normalised so that the seconds lie in
    [0, 86400) and the microseconds in [0, 1000000). *)
Definition sub_days (a b : datetime) : Z :=
  let days := toordinal a - toordinal b in
  let secs :=
    (second a + minute a * 60 + hour a * 3600)
    - (second b + minute b * 60 + hour b * 3600) in
  let us := microsecond a - microsecond b in
  let secs := secs + us / 1000000 in
  days + secs / 86400.

(** [dt.strftime("%Y-%m-%d")], kept as the three numbers it prints. *)
Definition strftime_ymd (dt : datetime) : Z * Z * Z :=
  (year dt, month dt, day dt).

(** A pandas [Timestamp], counted in microseconds from the start of
    ordinal day 0. *)
Definition Timestamp := Z.

Definition us_per_day := 86400000000.

(** [pd.to_datetime(dt)]. *)
Definition to_datetime (dt : datetime) : Timestamp :=
  toordinal dt * us_per_day
  + ((hour dt * 60 + minute dt) * 60 + second dt) * 1000000
  + microsecond dt.

End Calendar.
Import Calendar.

(** ** Price series *)

(** One row of the frame the provider returns: its index entry and its
    ["close"] column. *)
Record PricePoint : Set := mk_point {
  index : Timestamp;
  close : float
}.

Definition DataFrame := list PricePoint.

(** [df.index >= start]. *)
Definition mask_ge (df : DataFrame) (start : Timestamp) : list bool :=
  map (fun p => start <=? index p) df.

(** [mask.any()]. *)
Definition any (mask : list bool) : bool := existsb (fun b => b) mask.

(** [df[mask]]. *)
Definition select (df : DataFrame) (mask : list bool) : DataFrame :=
  map fst (filter snd (combine df mask)).

(** [df.iloc[0]]. *)
Definition iloc_first (df : DataFrame) : exc PricePoint :=
  match df with
  | p :: _ => Ok p
  | [] => Raise IndexError
  end.

(** [df.iloc[-1]]. *)
Definition iloc_last (df : DataFrame) : exc PricePoint :=
  match rev df with
  | p :: _ => Ok p
  | [] => Raise IndexError
  end.

(** [df.loc[idx, 'close']] used as a number: a label held by exactly one row
    selects a scalar; a repeated label selects a Series, whose truth value
    the row builder then refuses with [ValueError]. *)
Definition loc_close (df : DataFrame) (idx : Timestamp) : exc float :=
  match filter (fun p => index p =? idx) df with
  | [p] => Ok (close p)
  | _ => Raise ValueError
  end.

(** ** Table rows *)

(** One element of the list a table endpoint returns; [label_key] is the
    name of the label column (["Index"], ["ETF"], ["Currency"], ["Asset"]). *)
Record MetricRow : Set := mk_row {
  label_key : string;
  label : string;
  f5D : option float;
  fMTD : option float;
  fYTD : option float;
  f5Y : option float;
  f10Y : option float;
  Value : float
}.

(** [round(float(v), 1) if not np.isnan(v) else None]. *)
Definition field (v : float) : option float :=
  if negb (is_nan v) then Some (py_round v 1) else None.

(** The five window starts a request computes from [datetime.now()]. *)
Record windows : Set := mk_windows {
  start_ytd : datetime;
  start_mtd : datetime;
  start_5d : datetime;
  start_5y : datetime;
  start_10y : datetime
}.

(** Lines 116-121 of [get_equities_table] (the same in every table
    endpoint), in the order the source evaluates them. *)
Definition table_windows (end_date : datetime) : exc windows :=
  ytd <- datetime_ymd (year end_date) 1 1 ;;
  mtd <- datetime_ymd (year end_date) (month end_date) 1 ;;
  d5 <- sub_timedelta_days end_date 5 ;;
  y5 <- datetime_ymd (year end_date - 5) (month end_date) (day end_date) ;;
  y10 <- datetime_ymd (year end_date - 10) (month end_date) (day end_date) ;;
  Ok (mk_windows ytd mtd d5 y5 y10).

(** The [time_periods] dict of the chart endpoints, as the list of its items
    in insertion order. *)
Definition time_periods (end_date : datetime) : exc (list (string * datetime)) :=
  d5 <- sub_timedelta_days end_date 5 ;;
  mtd <- datetime_ymd (year end_date) (month end_date) 1 ;;
  ytd <- datetime_ymd (year end_date) 1 1 ;;
  y5 <- datetime_ymd (year end_date - 5) (month end_date) (day end_date) ;;
  y10 <- datetime_ymd (year end_date - 10) (month end_date) (day end_date) ;;
  Ok [("5d", d5); ("mtd", mtd); ("ytd", ytd); ("5y", y5); ("10y", y10)]%string.

(** [str.lower] on the ASCII range. *)
Definition lower_ascii (c : ascii) : ascii :=
  let n := nat_of_ascii c in
  if (65 <=? n)%nat && (n <=? 90)%nat then ascii_of_nat (n + 32) else c.

Fixpoint lower (s : string) : string :=
  match s with
  | EmptyString => EmptyString
  | String c s' => String (lower_ascii c) (lower s')
  end.

(** [d.get(key, default)]. *)
Fixpoint dict_get {A : Type} (d : list (string * A)) (key : string)
    (default : A) : A :=
  match d with
  | [] => default
  | (k, v) :: d' => if String.eqb k key then v else dict_get d' key default
  end.

(** [d[key]]. *)
Fixpoint dict_item {A : Type} (d : list (string * A)) (key : string) : exc A :=
  match d with
  | [] => Raise KeyError
  | (k, v) :: d' => if String.eqb k key then Ok v else dict_item d' key
  end.

(** Lines 1037-1047 of [get_equity_performance] (the same in every chart
    endpoint): [time_periods.get(start_date.lower(), time_periods['ytd'])]. *)
Definition chart_start (end_date : datetime) (start_date : string)
    : exc datetime :=
  periods <- time_periods end_date ;;
  default <- dict_item periods "ytd" ;;
  Ok (dict_get periods (lower start_date) default).

(** A query parameter with a default value: [None] is the absent
    parameter. *)
Definition with_default (default : string) (param : option string) : string :=
  match param with
  | Some s => s
  | None => default
  end.

(** One line trace of a chart: [go.Scatter(x=df.index, y=normalized_data,
    mode='lines', name=name)]. *)
Record Scatter : Set := mk_scatter {
  x : list Timestamp;
  y : list float;
  mode : string;
  name : string
}.

Section Endpoints.

(** The math library's [pow] on ordinary operands. *)
Variable libm_pow : float -> float -> float.

(** [obb.equity.price.historical(symbol=..., provider="yfinance",
    start_date=...).to_df()]: the frame, or the exception the provider
    raised. *)
Variable historical : string -> Z * Z * Z -> exc DataFrame.

(** Lines 139-174: the change over a trailing window, [np.nan] when no
    row is at or after the window start. *)
Definition change_pct (df_historical : DataFrame) (start : datetime)
    : exc float :=
  let mask := mask_ge df_historical (to_datetime start) in
  if any mask then
    first <- iloc_first (select df_historical mask) ;;
    let idx := index first in
    last <- iloc_last df_historical ;;
    let latest_close := close last in
    window_close <- loc_close df_historical idx ;;
    Ok ((latest_close - window_close) / window_close * 100)%float
  else Ok nan.

(** [(end_date - start).days / 365.25]. *)
Definition elapsed_years (end_date start : datetime) : exc float :=
  py_truediv (float_of_int (sub_days end_date start)) 365.25%float.

(** Lines 176-194: the compound annual growth rate over a window,
    [np.nan] when no row is at or after the window start. *)
Definition cagr (df_historical : DataFrame) (end_date start : datetime)
    (latest_price : float) : exc float :=
  let mask := mask_ge df_historical (to_datetime start) in
  if any mask then
    first <- iloc_first (select df_historical mask) ;;
    let start_price := close first in
    years <- elapsed_years end_date start ;;
    exponent <- py_truediv 1%float years ;;
    Ok ((c_pow libm_pow (latest_price / start_price) exponent - 1) * 100)%float
  else Ok nan.

(** Lines 134-204: the body of the loop once the frame is fetched;
    [None] is the [continue] on insufficient data. *)
Definition table_row (key name : string) (end_date : datetime) (w : windows)
    (df_historical : DataFrame) : exc (option MetricRow) :=
  if (length df_historical =? 0)%nat || (length df_historical <? 2)%nat
  then Ok None
  else
    last <- iloc_last df_historical ;;
    let latest_price := np_round (close last) 2 in
    five_day_change_pct <- change_pct df_historical (start_5d w) ;;
    mtd_change_pct <- change_pct df_historical (start_mtd w) ;;
    ytd_change_pct <- change_pct df_historical (start_ytd w) ;;
    five_y_cagr <- cagr df_historical end_date (start_5y w) latest_price ;;
    ten_y_cagr <- cagr df_historical end_date (start_10y w) latest_price ;;
    Ok (Some {| label_key := key;
                label := name;
                f5D := field five_day_change_pct;
                fMTD := field mtd_change_pct;
                fYTD := field ytd_change_pct;
                f5Y := field five_y_cagr;
                f10Y := field ten_y_cagr;
                Value := py_round latest_price 1 |}).

(** One turn of the [for symbol, name in symbols.items()] loop of a table
    endpoint: the [try] block, with [except Exception: continue]. *)
Definition table_step (key : string) (end_date : datetime) (w : windows)
    (results : list MetricRow) (item : string * string) : list MetricRow :=
  let '(symbol, name) := item in
  match
    df_historical <- historical symbol (strftime_ymd (start_10y w)) ;;
    table_row key name end_date w df_historical
  with
  | Ok (Some row) => results ++ [row]
  | Ok None => results
  | Raise _ => results
  end.

(** A table endpoint: [key] names its label column, [symbols] is its
    basket and [end_date] is what [datetime.now()] returned. *)
Definition table_endpoint (key : string) (symbols : list (string * string))
    (end_date : datetime) : exc (list MetricRow) :=
  w <- table_windows end_date ;;
  Ok (fold_left (table_step key end_date w) symbols []).

(** Lines 1079-1091: the trace of one symbol; [None] is the [continue]. *)
Definition chart_trace (name : string) (df_historical : DataFrame)
    : exc (option Scatter) :=
  if (length df_historical =? 0)%nat || (length df_historical <? 2)%nat
  then Ok None
  else
    first <- iloc_first df_historical ;;
    let normalized_data :=
      map (fun p => (close p / close first * 100)%float) df_historical in
    Ok (Some {| x := map index df_historical;
                y := normalized_data;
                mode := "lines";
                name := name |}).

(** One turn of the loop of a chart endpoint, with its [try] block. *)
Definition chart_step (start_date_str : Z * Z * Z) (figure : list Scatter)
    (item : string * string) : list Scatter :=
  let '(symbol, name) := item in
  match
    df_historical <- historical symbol start_date_str ;;
    chart_trace name df_historical
  with
  | Ok (Some trace) => figure ++ [trace]
  | Ok None => figure
  | Raise _ => figure
  end.

(** A chart endpoint, [def get_..._performance(start_date: str = "ytd",
    theme: str = "dark")]; the result is the list of traces added to the
    figure (layout and theme are applied by [plotly_config], outside
    this file). *)
Definition performance_endpoint (symbols : list (string * string))
    (end_date : datetime) (start_date theme : option string)
    : exc (list Scatter) :=
  let start_date := with_default "ytd" start_date in
  let theme := with_default "dark" theme in
  start <- chart_start end_date start_date ;;
  let start_date_str := strftime_ymd start in
  Ok (fold_left (chart_step start_date_str) symbols []).

(** *** The endpoints of [main.py] *)

Definition get_equities_table :=
  table_endpoint "Index"
    [("^NDX", "NASDAQ"); ("^GSPC", "S&P 500"); ("VEU", "IEF (Global Ex-US)");
     ("FEZ", "STOXX 50"); ("^N225", "NIKKEI"); ("ASHR", "CSI 300")]%string.

Definition get_bonds_table :=
  table_endpoint "ETF"
    [("SHY", "US Treasury ETF (1-3Y)"); ("IEF", "US Treasury ETF (7-10Y)");
     ("TLT", "US Treasury ETF (20Y+)"); ("HYG", "US HY ETF");
     ("LQD", "US Inv Grade ETF")]%string.

Definition get_commodities_table :=
  table_endpoint "ETF"
    [("GLD", "Gold"); ("SLV", "Silver"); ("CPER", "Copper");
     ("URA", "Uranium"); ("BNO", "Brent Crude Oil");
     ("USO", "WTI Crude Oil")]%string.

Definition get_currencies_table :=
  table_endpoint "Currency"
    [("DX-Y.NYB", "US Dollar Index (DXY)"); ("EURUSD=X", "EUR/USD");
     ("JPYUSD=X", "JPY/USD"); ("GBPUSD=X", "GBP/USD")]%string.

Definition get_volatility_table :=
  table_endpoint "Index" [("^VIX", "VIX"); ("MOVE", "MOVE")]%string.

Definition get_digital_assets_table :=
  table_endpoint "Asset"
    [("BTC-USD", "Bitcoin USD"); ("ETH-USD", "Ethereum USD");
     ("SOL-USD", "Solana USD")]%string.

Definition get_equity_performance :=
  performance_endpoint
    [("^GSPC", "S&P 500"); ("^DJI", "Dow Jones"); ("^IXIC", "NASDAQ");
     ("^FTSE", "FTSE 100"); ("^N225", "Nikkei 225");
     ("^HSI", "Hang Seng")]%string.

Definition get_bonds_performance :=
  performance_endpoint
    [("SHY", "US Treasury ETF (1-3Y)"); ("IEF", "US Treasury ETF (7-10Y)");
     ("TLT", "US Treasury ETF (20Y+)"); ("HYG", "US HY ETF");
     ("LQD", "US Inv Grade ETF")]%string.

Definition get_commodities_performance :=
  performance_endpoint
    [("GLD", "Gold"); ("SLV", "Silver"); ("CPER", "Copper");
     ("URA", "Uranium"); ("BNO", "Brent Crude Oil");
     ("USO", "WTI Crude Oil")]%string.

Definition get_currencies_performance :=
  performance_endpoint
    [("DX-Y.NYB", "US Dollar Index (DXY)"); ("EURUSD=X", "EUR/USD");
     ("JPYUSD=X", "JPY/USD"); ("GBPUSD=X", "GBP/USD")]%string.

Definition get_volatility_performance :=
  performance_endpoint [("^VIX", "VIX"); ("MOVE", "MOVE")]%string.

Definition get_digital_assets_performance :=
  performance_endpoint
    [("BTC-USD", "Bitcoin USD"); ("ETH-USD", "Ethereum USD");
     ("SOL-USD", "Solana USD")]%string.

End Endpoints.

(** ** Vocabulary of the properties *)

(** The first row of the frame whose index is at or after the instant [t]. *)
Definition first_on_or_after (df : DataFrame) (t : Timestamp)
    : option PricePoint :=
  find (fun p => t <=? index p) df.

(** Index strictly increasing: ascending, no timestamp twice. *)
Definition ascending (df : DataFrame) : Prop :=
  StronglySorted (fun p q => index p < index q) df.

(** The close of the last row (NaN on an empty frame). *)
Definition last_close (df : DataFrame) : float :=
  close (last df (mk_point 0 nan)).

(** The trailing windows and the CAGR windows of a row, with the start and
    the field of each. *)
Inductive trailing_window : Set := W5D | WMTD | WYTD.
Inductive cagr_window : Set := W5Y | W10Y.

Definition trailing_start (w : windows) (tw : trailing_window) : datetime :=
  match tw with
  | W5D => start_5d w
  | WMTD => start_mtd w
  | WYTD => start_ytd w
  end.

Definition trailing_field (row : MetricRow) (tw : trailing_window)
    : option float :=
  match tw with
  | W5D => f5D row
  | WMTD => fMTD row
  | WYTD => fYTD row
  end.

Definition cagr_start (w : windows) (cw : cagr_window) : datetime :=
  match cw with
  | W5Y => start_5y w
  | W10Y => start_10y w
  end.

Definition cagr_field (row : MetricRow) (cw : cagr_window) : option float :=
  match cw with
  | W5Y => f5Y row
  | W10Y => f10Y row
  end.

(** The exponent [1 / years] with [years = (end_date - start).days / 365.25],
    the days counted between the two calendar dates. *)
Definition cagr_exponent (end_date start : datetime) : float :=
  (1 / (float_of_int (toordinal end_date - toordinal start) / 365.25))%float.

(** The period tokens of the chart endpoints. *)
Definition period_tokens : list string :=
  ["5d"; "mtd"; "ytd"; "5y"; "10y"]%string.

(** The value the row builder computes for a trailing window before it is
    written into the row. *)
Definition trailing_value (df : DataFrame) (start : datetime) : float :=
  match first_on_or_after df (to_datetime start) with
  | Some p => ((last_close df - close p) / close p * 100)%float
  | None => nan
  end.

(** The value the row builder computes for a CAGR window before it is
    written into the row. *)
Definition cagr_value (libm_pow : float -> float -> float) (df : DataFrame)
    (end_date start : datetime) : float :=
  match first_on_or_after df (to_datetime start) with
  | Some p =>
      ((c_pow libm_pow (np_round (last_close df) 2 / close p)
                       (cagr_exponent end_date start) - 1) * 100)%float
  | None => nan
  end.

(** Bounded check of a predicate on [0 .. k-1]. *)
Fixpoint holds_below (f : Z -> bool) (k : nat) : bool :=
  match k with
  | O => true
  | S k' => f (Z.of_nat k') && holds_below f k'
  end.

(** The month and day computed by the tail of [ord2ymd] from the day number
    [n] within the year, and the check that they are the date of day [n]. *)
Definition month_day (n : Z) (leapyear : bool) : Z * Z :=
  let month := Z.shiftr (n + 50) 5 in
  let preceding :=
    DAYS_BEFORE_MONTH month + (if (2 <? month) && leapyear then 1 else 0) in
  if n <? preceding then
    let month := month - 1 in
    let preceding :=
      preceding
      - (DAYS_IN_MONTH month + (if (month =? 2) && leapyear then 1 else 0)) in
    (month, n - preceding + 1)
  else (month, n - preceding + 1).

Definition month_day_ok (leapyear : bool) (n : Z) : bool :=
  let '(m, d) := month_day n leapyear in
  (1 <=? m) && (m <=? 12) && (1 <=? d)
  && (d <=? (if (m =? 2) && leapyear then 29 else DAYS_IN_MONTH m))
  && (DAYS_BEFORE_MONTH m + (if (2 <? m) && leapyear then 1 else 0) + d =? n + 1).

(** The day counts a five-year and a ten-year window can span. *)
Definition window_day_range (cw : cagr_window) (days : Z) : Prop :=
  match cw with
  | W5Y => 1825 <= days <= 1827
  | W10Y => 3651 <= days <= 3653
  end.

(** The elapsed-years arithmetic on a day count: both divisions succeed and
    the exponent is a finite non-integer strictly between 0 and 1. *)
Definition exponent_ok (days : Z) : bool :=
  match py_truediv (float_of_int days) 365.25%float with
  | Ok years =>
      match py_truediv 1%float years with
      | Ok e =>
          is_finite e && negb (is_integer e) && (zero <? e)%float && (e <? one)%float
          && PrimFloat.Leibniz.eqb e (1 / (float_of_int days / 365.25))%float
      | Raise _ => false
      end
  | Raise _ => false
  end.

(** The trace the chart loop adds for [name] and a frame that starts with
    [first]: every close divided by the first close and multiplied by 100. *)
Definition normalized_trace (name : string) (first : PricePoint)
    (rest : DataFrame) : Scatter :=
  {| x := map index (first :: rest);
     y := map (fun p => (close p / close first * 100)%float) (first :: rest);
     mode := "lines";
     name := name |}.

(** The row [table_row] builds from a frame with sufficient data. *)
Definition expected_row (libm_pow : float -> float -> float)
    (key name : string) (end_date : datetime) (w : windows) (df : DataFrame)
    : MetricRow :=
  {| label_key := key;
     label := name;
     f5D := field (trailing_value df (start_5d w));
     fMTD := field (trailing_value df (start_mtd w));
     fYTD := field (trailing_value df (start_ytd w));
     f5Y := field (cagr_value libm_pow df end_date (start_5y w));
     f10Y := field (cagr_value libm_pow df end_date (start_10y w));
     Value := py_round (np_round (last_close df) 2) 1 |}.

(** [sub] is [full] with some elements left out, the order kept. *)
Inductive subsequence {A : Type} : list A -> list A -> Prop :=
| subsequence_nil : subsequence [] []
| subsequence_skip (a : A) (sub full : list A) :
    subsequence sub full -> subsequence sub (a :: full)
| subsequence_keep (a : A) (sub full : list A) :
    subsequence sub full -> subsequence (a :: sub) (a :: full).

(** The exponent of a CAGR window, as [c_pow] tests it. *)
Definition root_exponent (e : float) : Prop :=
  is_zero e = false /\ is_nan e = false /\ is_infinity e = false
  /\ (e <? zero)%float = false /\ is_odd_integer e = false.

(** The number of rows that carry the label [idx]. *)
Definition label_count (df : DataFrame) (idx : Timestamp) : nat :=
  length (filter (fun p => index p =? idx) df).

(** The first row at or after [start] carries a label that another row
    carries too. *)
Definition repeated_label (df : DataFrame) (start : datetime) : bool :=
  match first_on_or_after df (to_datetime start) with
  | Some p => (2 <=? label_count df (index p))%nat
  | None => false
  end.

(** Two providers answer alike for the symbols of the basket and the start
    date [d]. *)
Definition agree_on (h1 h2 : string -> Z * Z * Z -> exc DataFrame)
    (symbols : list (string * string)) (d : Z * Z * Z) : Prop :=
  forall symbol name, In (symbol, name) symbols -> h1 symbol d = h2 symbol d.

(** ** Sample requests *)

(** Midnight of a calendar day as a frame index. *)
Definition day_start (y m d : Z) : Timestamp :=
  to_datetime (mk_datetime y m d 0 0 0 0).

(** A math library that is never consulted: the sample runs below reach
    [pow] on special operands only. *)
Definition no_libm : float -> float -> float := fun _ _ => nan.

Definition sample_now : datetime := mk_datetime 2024 6 15 13 30 0 5.

Definition sample_windows : windows :=
  mk_windows (mk_datetime 2024 1 1 0 0 0 0) (mk_datetime 2024 6 1 0 0 0 0)
    (mk_datetime 2024 6 10 13 30 0 5) (mk_datetime 2019 6 15 0 0 0 0)
    (mk_datetime 2014 6 15 0 0 0 0).

(** Last close 0.7490234375 (exactly 767/1024). *)
Definition frame_rounding : DataFrame :=
  [mk_point (day_start 2020 1 1) 0.75; mk_point (day_start 2024 6 14) 0.7490234375].

Definition frame_zero_close : DataFrame :=
  [mk_point (day_start 2020 1 1) 0; mk_point (day_start 2024 6 14) 5].

Definition frame_negative_close : DataFrame :=
  [mk_point (day_start 2020 1 1) (-4); mk_point (day_start 2024 6 14) 5].

(** The series of the specification's example, seen on 2020-01-02. *)
Definition frame_sparse : DataFrame :=
  [mk_point (day_start 2015 1 1) 50; mk_point (day_start 2020 1 1) 100].


Definition sparse_now : datetime := mk_datetime 2020 1 2 0 0 0 0.

Definition sparse_windows : windows :=
  mk_windows (mk_datetime 2020 1 1 0 0 0 0) (mk_datetime 2020 1 1 0 0 0 0)
    (mk_datetime 2019 12 28 0 0 0 0) (mk_datetime 2015 1 2 0 0 0 0)
    (mk_datetime 2010 1 2 0 0 0 0).

Definition frame_single : DataFrame := [mk_point (day_start 2024 6 14) 5].

(** A provider that has one row for MOVE and two for every other symbol. *)
Definition sample_historical (symbol : string) (start_date : Z * Z * Z)
    : exc DataFrame :=
  if String.eqb symbol "MOVE" then Ok frame_single else Ok frame_rounding.

(** A frame whose rows all lie before the start of the year. *)
Definition frame_last_year : DataFrame :=
  [mk_point (day_start 2020 1 1) 4; mk_point (day_start 2023 12 29) 5].

(** A last close that is NaN. *)
Definition frame_nan_close : DataFrame :=
  [mk_point (day_start 2020 1 1) 5; mk_point (day_start 2024 6 14) nan].

(** Last close 0.0009765625 (exactly 1/1024), which rounds to 0.00. *)
Definition frame_small_close : DataFrame :=
  [mk_point (day_start 2020 1 1) 5;
   mk_point (day_start 2024 6 14) 0.0009765625].

(** A close of zero on the first trading day of 2024. *)
Definition frame_zero_this_year : DataFrame :=
  [mk_point (day_start 2024 1 2) 0; mk_point (day_start 2024 6 14) 5].

(** Two rows of the same day, as the provider can return them while the
    market is open. *)
Definition frame_repeated : DataFrame :=
  [mk_point (day_start 2024 6 14) 5; mk_point (day_start 2024 6 14) 5.5].

(** A provider that knows the symbols of the volatility basket only. *)
Definition volatility_historical (symbol : string) (start_date : Z * Z * Z)
    : exc DataFrame :=
  if String.eqb symbol "^VIX" || String.eqb symbol "MOVE"
  then sample_historical symbol start_date
  else Raise ProviderError.

(** The series of the specification's example with a last close of 0. *)
Definition frame_sparse_last_zero : DataFrame :=
  [mk_point (day_start 2015 1 1) 50; mk_point (day_start 2020 1 1) 0].

(** ** Calendar lemmas *)

Lemma is_leap_spec y :
  is_leap y = true <-> (y mod 4 = 0 /\ (y mod 100 <> 0 \/ y mod 400 = 0)).
Proof.
  unfold is_leap.
  rewrite andb_true_iff, orb_true_iff, negb_true_iff, !Z.eqb_eq, Z.eqb_neq.
  tauto.
Qed.

Lemma is_leap_false y :
  is_leap y = false <-> (y mod 4 <> 0 \/ (y mod 100 = 0 /\ y mod 400 <> 0)).
Proof.
  unfold is_leap.
  rewrite andb_false_iff, orb_false_iff, negb_false_iff, !Z.eqb_eq, !Z.eqb_neq.
  tauto.
Qed.

(** A day and the same day five (ten) years earlier are 1825 to 1827
    (3651 to 3653) days apart. *)
Lemma year_diff_days_tight k y m d :
  (k = 5 \/ k = 10) ->
  valid_date y m d = true ->
  valid_date (y - k) m d = true ->
  let days := ymd2ord y m d - ymd2ord (y - k) m d in
  (k = 5 -> 1825 <= days <= 1827) /\ (k = 10 -> 3651 <= days <= 3653).
Proof.
  intros Hk Hv Hv'.
  unfold valid_date, MINYEAR, MAXYEAR in *.
  repeat rewrite andb_true_iff in *.
  repeat rewrite Z.leb_le in *.
  destruct Hv as [[[[[? ?] ?] ?] ?] Hd], Hv' as [[[[[? ?] ?] ?] ?] Hd'].
  unfold ymd2ord, days_before_year, days_before_month.
  unfold days_in_month in *.
  destruct (is_leap y) eqn:L1; destruct (is_leap (y - k)) eqn:L2;
  destruct (2 <? m) eqn:Hm; simpl andb in *;
  try (apply is_leap_spec in L1); try (apply is_leap_spec in L2);
  try (apply is_leap_false in L1); try (apply is_leap_false in L2);
  destruct Hk; subst k; Z.to_euclidean_division_equations; lia.
Qed.

Lemma holds_below_spec f k :
  holds_below f k = true -> forall n, 0 <= n < Z.of_nat k -> f n = true.
Proof.
  induction k as [|k IH]; intros H n Hn.
  - lia.
  - cbn [holds_below] in H. apply andb_true_iff in H as [Hk Hrest].
    destruct (Z.eq_dec n (Z.of_nat k)) as [->|Hne]; [exact Hk|].
    apply IH; [exact Hrest | lia].
Qed.

Lemma month_day_checked (leapyear : bool) (n : Z) :
  0 <= n < (if leapyear then 366 else 365) ->
  month_day_ok leapyear n = true.
Proof.
  destruct leapyear; intros Hn.
  - apply (holds_below_spec (month_day_ok true) 366); [vm_compute; reflexivity | lia].
  - apply (holds_below_spec (month_day_ok false) 365); [vm_compute; reflexivity | lia].
Qed.

Lemma year_parts_div n400 n100 n4 n1 :
  0 <= n100 <= 3 -> 0 <= n4 <= 24 -> 0 <= n1 <= 3 ->
  let p := n400 * 400 + n100 * 100 + n4 * 4 + n1 in
  p / 4 = n400 * 100 + n100 * 25 + n4 /\ p mod 4 = n1
  /\ p / 100 = n400 * 4 + n100 /\ p mod 100 = n4 * 4 + n1
  /\ p / 400 = n400 /\ p mod 400 = n100 * 100 + n4 * 4 + n1.
Proof.
  intros H100 H4 H1 p.
  assert (D4 : p = 4 * (n400 * 100 + n100 * 25 + n4) + n1) by (subst p; lia).
  assert (D100 : p = 100 * (n400 * 4 + n100) + (n4 * 4 + n1)) by (subst p; lia).
  assert (D400 : p = 400 * n400 + (n100 * 100 + n4 * 4 + n1)) by (subst p; lia).
  repeat split.
  - symmetry. apply (Z.div_unique p 4 _ n1); [lia | exact D4].
  - symmetry. apply (Z.mod_unique p 4 (n400 * 100 + n100 * 25 + n4)); [lia | exact D4].
  - symmetry. apply (Z.div_unique p 100 _ (n4 * 4 + n1)); [lia | exact D100].
  - symmetry. apply (Z.mod_unique p 100 (n400 * 4 + n100)); [lia | exact D100].
  - symmetry. apply (Z.div_unique p 400 _ (n100 * 100 + n4 * 4 + n1)); [lia | exact D400].
  - symmetry. apply (Z.mod_unique p 400 n400); [lia | exact D400].
Qed.

Lemma days_before_year_parts n400 n100 n4 n1 :
  0 <= n100 <= 3 -> 0 <= n4 <= 24 -> 0 <= n1 <= 3 ->
  days_before_year (n400 * 400 + n100 * 100 + n4 * 4 + n1 + 1)
  = 146097 * n400 + 36524 * n100 + 1461 * n4 + 365 * n1.
Proof.
  intros H100 H4 H1. unfold days_before_year.
  replace (n400 * 400 + n100 * 100 + n4 * 4 + n1 + 1 - 1)
    with (n400 * 400 + n100 * 100 + n4 * 4 + n1) by lia.
  destruct (year_parts_div n400 n100 n4 n1 H100 H4 H1)
    as (E4 & _ & E100 & _ & E400 & _).
  cbv zeta in E4, E100, E400. rewrite E4, E100, E400. lia.
Qed.

Lemma is_leap_parts n400 n100 n4 n1 :
  0 <= n100 <= 3 -> 0 <= n4 <= 24 -> 0 <= n1 <= 3 ->
  is_leap (n400 * 400 + n100 * 100 + n4 * 4 + n1 + 1)
  = (n1 =? 3) && (negb (n4 =? 24) || (n100 =? 3)).
Proof.
  intros H100 H4 H1.
  (* the year is written again as 400 a + 100 b + 4 c + d, carries done *)
  assert (Hparts : exists a b c d,
             0 <= b <= 3 /\ 0 <= c <= 24 /\ 0 <= d <= 3
             /\ n400 * 400 + n100 * 100 + n4 * 4 + n1 + 1
                = a * 400 + b * 100 + c * 4 + d
             /\ (d =? 0) && (negb (c * 4 + d =? 0) || (b * 100 + c * 4 + d =? 0))
                = (n1 =? 3) && (negb (n4 =? 24) || (n100 =? 3))).
  { assert (Hc : 0 <= n1 <= 2
                 \/ n1 = 3 /\ 0 <= n4 <= 23
                 \/ n1 = 3 /\ n4 = 24 /\ 0 <= n100 <= 2
                 \/ n1 = 3 /\ n4 = 24 /\ n100 = 3) by lia.
    destruct Hc as [Hc|[Hc|[Hc|Hc]]].
    - exists n400, n100, n4, (n1 + 1). repeat split; lia.
    - exists n400, n100, (n4 + 1), 0. repeat split; lia.
    - exists n400, (n100 + 1), 0, 0. repeat split; lia.
    - exists (n400 + 1), 0, 0, 0. repeat split; lia. }
  destruct Hparts as (a & b & c & d & Hb & Hc & Hd & -> & <-).
  destruct (year_parts_div a b c d Hb Hc Hd) as (_ & E4 & _ & E100 & _ & E400).
  cbv zeta in E4, E100, E400. unfold is_leap. rewrite E4, E100, E400.
  reflexivity.
Qed.

(** [ord2ymd] returns a date of the calendar, and [ymd2ord] maps it back. *)
Lemma ord2ymd_spec n :
  1 <= n <= MAXORDINAL ->
  let '(y, m, d) := ord2ymd n in
  valid_date y m d = true /\ ymd2ord y m d = n.
Proof.
  intros Hn. unfold MAXORDINAL in Hn.
  unfold ord2ymd, DI400Y, DI100Y, DI4Y.
  set (n0 := n - 1).
  set (n400 := n0 / 146097). set (r1 := n0 mod 146097).
  set (n100 := r1 / 36524). set (r2 := r1 mod 36524).
  set (n4 := r2 / 1461). set (r3 := r2 mod 1461).
  set (n1 := r3 / 365). set (r4 := r3 mod 365).
  assert (E1 : n0 = 146097 * n400 + r1 /\ 0 <= r1 < 146097)
    by (subst n400 r1; split; [apply Z.div_mod; lia | apply Z.mod_pos_bound; lia]).
  assert (E2 : r1 = 36524 * n100 + r2 /\ 0 <= r2 < 36524)
    by (subst n100 r2; split; [apply Z.div_mod; lia | apply Z.mod_pos_bound; lia]).
  assert (E3 : r2 = 1461 * n4 + r3 /\ 0 <= r3 < 1461)
    by (subst n4 r3; split; [apply Z.div_mod; lia | apply Z.mod_pos_bound; lia]).
  assert (E4 : r3 = 365 * n1 + r4 /\ 0 <= r4 < 365)
    by (subst n1 r4; split; [apply Z.div_mod; lia | apply Z.mod_pos_bound; lia]).
  assert (B0 : 0 <= n0 < 3652059) by (subst n0; lia).
  assert (En : n = n0 + 1) by (subst n0; lia).
  clearbody n400 r1 n100 r2 n4 r3 n1 r4. clearbody n0. subst n.
  assert (B400 : 0 <= n400 <= 24) by lia.
  assert (B100 : 0 <= n100 <= 4) by lia.
  assert (B4 : 0 <= n4 <= 24) by lia.
  assert (B1 : 0 <= n1 <= 4) by lia.
  destruct ((n1 =? 4) || (n100 =? 4)) eqn:Hsp.
  - (* the last day of a leap year: December 31 of the year before *)
    apply orb_true_iff in Hsp. rewrite !Z.eqb_eq in Hsp.
    assert (Hcase : exists a b c,
               0 <= a <= 3 /\ 0 <= b <= 24 /\
               n400 * 400 + 1 + n100 * 100 + n4 * 4 + n1 - 1
               = n400 * 400 + a * 100 + b * 4 + 3 + 1
               /\ n0 + 1 = 146097 * n400 + 36524 * a + 1461 * b + 365 * 3 + 366
               /\ c = (negb (b =? 24) || (a =? 3)) /\ c = true).
    { assert (Hc : (n100 = 4 /\ n4 = 0 /\ n1 = 0 /\ r4 = 0)
                   \/ (n1 = 4 /\ 0 <= n100 <= 3 /\ 0 <= n4 <= 23 /\ r4 = 0)) by lia.
      destruct Hc as [(-> & -> & -> & ->)|(-> & ? & ? & ->)].
      - exists 3, 24, true. repeat split; lia.
      - exists n100, n4, true. repeat split; lia. }
    destruct Hcase as (a & b & c & Ha & Hb & EY & En & Ec & Hc). subst c.
    rewrite EY, En.
    unfold valid_date, ymd2ord, days_before_month, days_in_month, MINYEAR, MAXYEAR.
    rewrite is_leap_parts, days_before_year_parts by lia.
    replace (3 =? 3) with true by reflexivity.
    rewrite Hc. cbn [andb Z.eqb Pos.eqb Z.ltb Z.compare Pos.compare Pos.compare_cont
                      DAYS_BEFORE_MONTH DAYS_IN_MONTH].
    split; [|lia].
    repeat rewrite andb_true_iff. repeat rewrite Z.leb_le. lia.
  - apply orb_false_iff in Hsp. rewrite !Z.eqb_neq in Hsp.
    set (leapyear := (n1 =? 3) && (negb (n4 =? 24) || (n100 =? 3))).
    replace (n400 * 400 + 1 + n100 * 100 + n4 * 4 + n1)
      with (n400 * 400 + n100 * 100 + n4 * 4 + n1 + 1) by lia.
    set (Y := n400 * 400 + n100 * 100 + n4 * 4 + n1 + 1).
    assert (L : is_leap Y = leapyear) by (apply is_leap_parts; lia).
    assert (DY : days_before_year Y = n0 - r4).
    { subst Y. rewrite days_before_year_parts by lia. lia. }
    assert (BY : 1 <= Y <= 9999) by (subst Y; lia).
    pose proof (month_day_checked leapyear r4) as Hmd.
    unfold month_day_ok, month_day in Hmd.
    assert (Hr4 : 0 <= r4 < (if leapyear then 366 else 365))
      by (destruct leapyear; lia).
    specialize (Hmd Hr4).
    clearbody Y leapyear.
    destruct (r4 <? _) eqn:Hlt;
      repeat rewrite andb_true_iff in Hmd;
      destruct Hmd as [[[[Hm1 Hm2] Hd1] Hd2] Hs];
      rewrite Z.leb_le in Hm1, Hm2, Hd1, Hd2; rewrite Z.eqb_eq in Hs;
      unfold valid_date, ymd2ord, days_before_month, days_in_month,
        MINYEAR, MAXYEAR; rewrite L, DY;
      (split; [repeat rewrite andb_true_iff; repeat rewrite Z.leb_le; lia | lia]).
Qed.

(** Subtracting [n] days lowers the ordinal by [n] and keeps the time. *)
Lemma sub_timedelta_days_spec dt n s :
  sub_timedelta_days dt n = Ok s ->
  valid_date (year s) (month s) (day s) = true
  /\ toordinal s = toordinal dt - n
  /\ hour s = hour dt /\ minute s = minute dt /\ second s = second dt
  /\ microsecond s = microsecond dt.
Proof.
  unfold sub_timedelta_days.
  destruct ((0 <? toordinal dt - n) && (toordinal dt - n <=? MAXORDINAL)) eqn:Hr;
    [|discriminate].
  apply andb_true_iff in Hr as [H0 H1].
  apply Z.ltb_lt in H0. apply Z.leb_le in H1.
  pose proof (ord2ymd_spec (toordinal dt - n) ltac:(lia)) as Hspec.
  destruct (ord2ymd (toordinal dt - n)) as [[y m] d].
  intros [= <-]. cbn. unfold toordinal. cbn. tauto.
Qed.

(** ** Binary64 lemmas *)

Lemma SF_of_float_cases (c : float) :
  match Prim2SF c with
  | S754_zero _ => is_zero c = true
  | S754_infinity _ => is_infinity c = true
  | S754_nan => is_nan c = true
  | S754_finite _ _ _ => True
  end.
Proof.
  pose proof (SF2Prim_Prim2SF c) as H.
  destruct (Prim2SF c) as [[|]|[|]| |s m e]; cbn in H; subst c; try exact I;
    vm_compute; reflexivity.
Qed.

(** A finite non-zero float has a sign, a mantissa and an exponent. *)
Lemma finite_nonzero_SF (c : float) :
  is_finite c = true -> is_zero c = false ->
  exists s m e, Prim2SF c = S754_finite s m e.
Proof.
  intros Hf Hz. unfold is_finite in Hf.
  apply negb_true_iff, orb_false_iff in Hf as [Hn Hi].
  pose proof (SF_of_float_cases c) as H.
  destruct (Prim2SF c) as [s|s| |s m e]; try congruence.
  eauto.
Qed.

(** IEEE 754 division of a finite non-zero number by itself is exactly 1:
    the quotient of the mantissa shifted by 53 bits is 2^53 with remainder 0. *)
Lemma SFdiv_self s m e :
  SF64div (S754_finite s m e) (S754_finite s m e) = Prim2SF one.
Proof.
  unfold SF64div, SFdiv, SFdiv_core_binary.
  replace (Zdigits2 (Z.pos m) + e - (Zdigits2 (Z.pos m) + e)) with 0 by lia.
  replace (e - e) with 0 by lia.
  change (Z.min (fexp prec emax 0) 0) with (-53).
  change (0 - -53) with 53.
  cbv iota beta zeta.
  assert (Hsh : Z.shiftl (Z.pos m) 53 = 9007199254740992 * Z.pos m).
  { rewrite Z.shiftl_mul_pow2 by lia.
    replace (2 ^ 53) with 9007199254740992 by reflexivity. lia. }
  rewrite Hsh.
  assert (Hde : Z.div_eucl (9007199254740992 * Z.pos m) (Z.pos m)
                = (9007199254740992, 0)).
  { transitivity ((9007199254740992 * Z.pos m) / Z.pos m,
                  (9007199254740992 * Z.pos m) mod Z.pos m).
    - unfold Z.div, Z.modulo.
      destruct (Z.div_eucl (9007199254740992 * Z.pos m) (Z.pos m)); reflexivity.
    - rewrite Z.div_mul, Z.mod_mul by lia. reflexivity. }
  rewrite Hde.
  rewrite xorb_nilpotent.
  assert (Hloc : new_location (Z.pos m) 0 = loc_Exact).
  { unfold new_location, new_location_even, new_location_odd.
    destruct (Z.even (Z.pos m)); reflexivity. }
  rewrite Hloc. vm_compute. reflexivity.
Qed.

Lemma div_self (c : float) :
  is_finite c = true -> is_zero c = false -> (c / c)%float = one.
Proof.
  intros Hf Hz.
  destruct (finite_nonzero_SF c Hf Hz) as (s & m & e & Hc).
  apply Prim2SF_inj. rewrite div_spec, Hc. apply SFdiv_self.
Qed.

Lemma normalized_first (c : float) :
  is_finite c = true -> is_zero c = false -> (c / c * 100)%float = 100%float.
Proof.
  intros Hf Hz. rewrite div_self by assumption. vm_compute. reflexivity.
Qed.

Lemma Prim2SF_zero : Prim2SF zero = S754_zero false.
Proof. vm_compute. reflexivity. Qed.

Lemma Prim2SF_one : Prim2SF one = S754_finite false 4503599627370496 (-52).
Proof. vm_compute. reflexivity. Qed.

Lemma Prim2SF_infinity : Prim2SF infinity = S754_infinity false.
Proof. vm_compute. reflexivity. Qed.

Lemma SFcompare_finite_refl s m e :
  SFcompare (S754_finite s m e) (S754_finite s m e) = Some Eq.
Proof.
  cbn. rewrite Z.compare_refl, Pos.compare_cont_refl. destruct s; reflexivity.
Qed.

Lemma finite_SF_tests (x : float) s m e :
  Prim2SF x = S754_finite s m e ->
  is_nan x = false /\ is_zero x = false /\ is_infinity x = false.
Proof.
  intros Hx. unfold is_nan, is_zero, is_infinity.
  rewrite !eqb_spec, abs_spec, Hx, Prim2SF_zero, Prim2SF_infinity.
  unfold SFeqb. rewrite SFcompare_finite_refl. cbn. destruct s; auto.
Qed.

Lemma negative_SF (x : float) :
  (x <? zero)%float = true -> is_infinity x = false ->
  exists m e, Prim2SF x = S754_finite true m e.
Proof.
  intros Hlt Hi. rewrite ltb_spec, Prim2SF_zero in Hlt.
  pose proof (SF_of_float_cases x) as Hc.
  destruct (Prim2SF x) as [s|s| |s m e]; try congruence.
  - destruct s; discriminate.
  - discriminate.
  - destruct s; [eauto | discriminate].
Qed.

Lemma non_integer_nonzero (y : float) :
  is_integer y = false -> is_zero y = false.
Proof.
  unfold is_integer, is_zero. rewrite eqb_spec, Prim2SF_zero.
  destruct (Prim2SF y) as [s|s| |s m e]; try discriminate; try reflexivity.
  - destruct s; reflexivity.
  - intros _. destruct s; reflexivity.
Qed.

(** C99 F.10.4.4: pow(x, y) is NaN for finite x < 0 and finite non-integer y. *)
Lemma c_pow_negative_base libm_pow (x y : float) :
  (x <? zero)%float = true -> is_infinity x = false ->
  is_finite y = true -> is_integer y = false ->
  c_pow libm_pow x y = nan.
Proof.
  intros Hlt Hi Hy Hint.
  destruct (negative_SF x Hlt Hi) as (m & e & Hx).
  destruct (finite_SF_tests x _ _ _ Hx) as (Hxn & Hxz & _).
  unfold is_finite in Hy. apply negb_true_iff, orb_false_iff in Hy as [Hyn Hyi].
  unfold c_pow.
  rewrite (non_integer_nonzero y Hint).
  assert (H1 : (x =? one)%float = false).
  { rewrite eqb_spec, Hx, Prim2SF_one. reflexivity. }
  rewrite H1, Hxn, Hyn, Hyi, Hxz, Hi, Hlt, Hint. reflexivity.
Qed.

(** ** Frame lemmas *)

Section FrameFacts.

Variable t : Timestamp.

Lemma select_mask_ge df :
  select df (mask_ge df t) = filter (fun p => t <=? index p) df.
Proof.
  unfold select, mask_ge.
  induction df as [|p df IH]; [reflexivity|].
  cbn. destruct (t <=? index p); cbn; rewrite IH; reflexivity.
Qed.

Lemma any_mask_ge df :
  any (mask_ge df t) = match first_on_or_after df t with
                       | Some _ => true
                       | None => false
                       end.
Proof.
  unfold any, mask_ge, first_on_or_after.
  induction df as [|p df IH]; [reflexivity|].
  cbn. destruct (t <=? index p); [reflexivity | exact IH].
Qed.

Lemma iloc_first_select df :
  iloc_first (select df (mask_ge df t))
  = match first_on_or_after df t with
    | Some p => Ok p
    | None => Raise IndexError
    end.
Proof.
  rewrite select_mask_ge. unfold first_on_or_after.
  induction df as [|p df IH]; [reflexivity|].
  cbn. destruct (t <=? index p); [reflexivity | exact IH].
Qed.

Lemma first_on_or_after_In df p :
  first_on_or_after df t = Some p -> In p df /\ t <= index p.
Proof.
  unfold first_on_or_after. intros H.
  apply find_some in H as [Hin Hle]. split; [exact Hin | lia].
Qed.

Lemma first_on_or_after_None df :
  first_on_or_after df t = None <-> (forall p, In p df -> index p < t).
Proof.
  unfold first_on_or_after. split.
  - intros H p Hin. pose proof (find_none _ _ H p Hin) as Hp. cbn in Hp. lia.
  - intros H. destruct (find _ df) as [p|] eqn:Hf; [|reflexivity].
    apply find_some in Hf as [Hin Hle]. specialize (H p Hin). lia.
Qed.

End FrameFacts.

(** In a strictly ascending frame a label selects a single row. *)
Lemma loc_close_unique df p :
  ascending df -> In p df -> loc_close df (index p) = Ok (close p).
Proof.
  unfold loc_close, ascending.
  intros Hs Hin.
  assert (Hf : filter (fun q => index q =? index p) df = [p]).
  { induction Hs as [|q df Hs IH Hall]; [destruct Hin|].
    rewrite Forall_forall in Hall. cbn.
    destruct Hin as [->|Hin].
    - rewrite Z.eqb_refl. f_equal.
      clear IH Hs.
      induction df as [|r df IHdf]; [reflexivity|].
      cbn. assert (Hr : index p < index r) by (apply Hall; left; reflexivity).
      replace (index r =? index p) with false by (symmetry; apply Z.eqb_neq; lia).
      apply IHdf. intros x Hx. apply Hall. right. exact Hx.
    - specialize (Hall p Hin).
      replace (index q =? index p) with false by (symmetry; apply Z.eqb_neq; lia).
      apply IH, Hin. }
  rewrite Hf. reflexivity.
Qed.

Lemma iloc_last_nonempty df :
  df <> [] -> iloc_last df = Ok (last df (mk_point 0 nan)).
Proof.
  intros Hne. unfold iloc_last.
  destruct (exists_last Hne) as (l & a & ->).
  rewrite rev_app_distr, last_last. reflexivity.
Qed.

Lemma length_two_nonempty (df : DataFrame) : (2 <= length df)%nat -> df <> [].
Proof. destruct df; cbn; [lia | discriminate]. Qed.

(** ** The per-symbol computations *)

(** The change over a trailing window, in closed form. *)
Lemma change_pct_spec df start :
  ascending df -> df <> [] ->
  change_pct df start = Ok (trailing_value df start).
Proof.
  intros Hs Hne. unfold change_pct, trailing_value.
  rewrite any_mask_ge, iloc_first_select.
  destruct (first_on_or_after df (to_datetime start)) as [p|] eqn:Hf;
    [|reflexivity].
  apply first_on_or_after_In in Hf as [Hin _].
  cbn [bind]. rewrite (iloc_last_nonempty df Hne). cbn [bind].
  rewrite (loc_close_unique df p Hs Hin). reflexivity.
Qed.

(** Counted from a midnight, [.days] is the difference of the ordinals. *)
Lemma sub_days_midnight a y m d :
  valid_time a = true ->
  sub_days a (mk_datetime y m d 0 0 0 0)
  = toordinal a - ymd2ord y m d.
Proof.
  unfold valid_time, sub_days, toordinal. cbn [year month day hour minute second microsecond].
  repeat rewrite andb_true_iff. repeat rewrite Z.leb_le. repeat rewrite Z.ltb_lt.
  intros. 
  assert (E1 : (microsecond a - 0) / 1000000 = 0) by (apply Z.div_small; lia).
  rewrite E1.
  assert (E2 : (second a + minute a * 60 + hour a * 3600 - (0 + 0 * 60 + 0 * 3600) + 0) / 86400 = 0)
    by (apply Z.div_small; lia).
  rewrite E2. lia.
Qed.

Lemma datetime_ymd_Ok y m d s :
  datetime_ymd y m d = Ok s ->
  s = mk_datetime y m d 0 0 0 0 /\ valid_date y m d = true.
Proof.
  unfold datetime_ymd. destruct (valid_date y m d); [|discriminate].
  intros [= <-]. auto.
Qed.

Lemma table_windows_Ok end_date w :
  table_windows end_date = Ok w ->
  start_ytd w = mk_datetime (year end_date) 1 1 0 0 0 0
  /\ start_mtd w = mk_datetime (year end_date) (month end_date) 1 0 0 0 0
  /\ sub_timedelta_days end_date 5 = Ok (start_5d w)
  /\ start_5y w
     = mk_datetime (year end_date - 5) (month end_date) (day end_date) 0 0 0 0
  /\ start_10y w
     = mk_datetime (year end_date - 10) (month end_date) (day end_date) 0 0 0 0
  /\ valid_date (year end_date - 5) (month end_date) (day end_date) = true
  /\ valid_date (year end_date - 10) (month end_date) (day end_date) = true.
Proof.
  unfold table_windows.
  destruct (datetime_ymd (year end_date) 1 1) as [ytd|] eqn:E1; [|discriminate].
  destruct (datetime_ymd (year end_date) (month end_date) 1) as [mtd|] eqn:E2;
    [|discriminate].
  destruct (sub_timedelta_days end_date 5) as [d5|] eqn:E3; [|discriminate].
  destruct (datetime_ymd (year end_date - 5) _ _) as [y5|] eqn:E4; [|discriminate].
  destruct (datetime_ymd (year end_date - 10) _ _) as [y10|] eqn:E5; [|discriminate].
  cbn [bind]. intros [= <-]. cbn.
  apply datetime_ymd_Ok in E1 as [-> _], E2 as [-> _], E4 as [-> V5], E5 as [-> V10].
  repeat split; assumption.
Qed.

(** The days of a CAGR window, as [.days] counts them. *)
Lemma cagr_window_days end_date w cw :
  valid_datetime end_date = true ->
  table_windows end_date = Ok w ->
  sub_days end_date (cagr_start w cw)
  = toordinal end_date - toordinal (cagr_start w cw)
  /\ window_day_range cw (toordinal end_date - toordinal (cagr_start w cw)).
Proof.
  intros Hv Hw. unfold valid_datetime in Hv.
  apply andb_true_iff in Hv as [Hd Ht].
  apply table_windows_Ok in Hw as (_ & _ & _ & E5 & E10 & V5 & V10).
  destruct cw; cbn [cagr_start window_day_range].
  - rewrite E5, sub_days_midnight by exact Ht.
    unfold toordinal. cbn [year month day].
    pose proof (year_diff_days_tight 5 _ _ _ (or_introl eq_refl) Hd V5) as [H _].
    specialize (H eq_refl). split; [reflexivity | exact H].
  - rewrite E10, sub_days_midnight by exact Ht.
    unfold toordinal. cbn [year month day].
    pose proof (year_diff_days_tight 10 _ _ _ (or_intror eq_refl) Hd V10) as [_ H].
    specialize (H eq_refl). split; [reflexivity | exact H].
Qed.

Lemma exponent_ok_days days :
  1825 <= days <= 1827 \/ 3651 <= days <= 3653 -> exponent_ok days = true.
Proof.
  intros H.
  assert (Hc : days = 1825 \/ days = 1826 \/ days = 1827
               \/ days = 3651 \/ days = 3652 \/ days = 3653) by lia.
  destruct Hc as [->|[->|[->|[->|[->| ->]]]]]; vm_compute; reflexivity.
Qed.

(** The elapsed-years arithmetic of a CAGR window does not raise, and its
    exponent is a finite non-integer strictly between 0 and 1. *)
Lemma cagr_exponent_spec end_date w cw :
  valid_datetime end_date = true ->
  table_windows end_date = Ok w ->
  exists years,
    elapsed_years end_date (cagr_start w cw) = Ok years
    /\ py_truediv 1%float years = Ok (cagr_exponent end_date (cagr_start w cw))
    /\ is_finite (cagr_exponent end_date (cagr_start w cw)) = true
    /\ is_integer (cagr_exponent end_date (cagr_start w cw)) = false
    /\ (zero <? cagr_exponent end_date (cagr_start w cw))%float = true
    /\ (cagr_exponent end_date (cagr_start w cw) <? one)%float = true.
Proof.
  intros Hv Hw.
  destruct (cagr_window_days end_date w cw Hv Hw) as (Hd & Hb).
  unfold elapsed_years, cagr_exponent. rewrite Hd.
  set (days := toordinal end_date - toordinal (cagr_start w cw)) in *.
  assert (Hok : exponent_ok days = true).
  { apply exponent_ok_days. destruct cw; cbn [window_day_range] in Hb; lia. }
  unfold exponent_ok in Hok.
  destruct (py_truediv (float_of_int days) 365.25%float) as [years|];
    [|discriminate].
  exists years.
  destruct (py_truediv 1%float years) as [e|]; [|discriminate].
  repeat rewrite andb_true_iff in Hok.
  destruct Hok as [[[[Hf Hi] Hp] Hl] He].
  apply FloatAxioms.Leibniz.eqb_spec in He. subst e.
  apply negb_true_iff in Hi. repeat split; assumption.
Qed.

(** The CAGR computation of a window, in closed form. *)
Lemma cagr_spec libm_pow df end_date w cw latest_price :
  valid_datetime end_date = true ->
  table_windows end_date = Ok w ->
  cagr libm_pow df end_date (cagr_start w cw) latest_price
  = Ok match first_on_or_after df (to_datetime (cagr_start w cw)) with
       | Some p =>
           ((c_pow libm_pow (latest_price / close p)
               (cagr_exponent end_date (cagr_start w cw)) - 1) * 100)%float
       | None => nan
       end.
Proof.
  intros Hv Hw. unfold cagr.
  rewrite any_mask_ge, iloc_first_select.
  destruct (first_on_or_after df _) as [p|]; [|reflexivity].
  destruct (cagr_exponent_spec end_date w cw Hv Hw) as (years & Hy & He & _).
  cbn [bind]. rewrite Hy. cbn [bind]. rewrite He. reflexivity.
Qed.

(** The row of a symbol with sufficient data, field by field. *)
Lemma table_row_spec libm_pow key name end_date w df :
  valid_datetime end_date = true ->
  table_windows end_date = Ok w ->
  ascending df -> (2 <= length df)%nat ->
  table_row libm_pow key name end_date w df
  = Ok (Some {| label_key := key;
                label := name;
                f5D := field (trailing_value df (start_5d w));
                fMTD := field (trailing_value df (start_mtd w));
                fYTD := field (trailing_value df (start_ytd w));
                f5Y := field (cagr_value libm_pow df end_date (start_5y w));
                f10Y := field (cagr_value libm_pow df end_date (start_10y w));
                Value := py_round (np_round (last_close df) 2) 1 |}).
Proof.
  intros Hv Hw Hs Hlen.
  pose proof (length_two_nonempty df Hlen) as Hne.
  unfold table_row.
  replace ((length df =? 0)%nat || (length df <? 2)%nat) with false.
  2:{ symmetry. apply orb_false_iff. split.
      - apply Nat.eqb_neq. lia.
      - apply Nat.ltb_ge. lia. }
  rewrite (iloc_last_nonempty df Hne). cbn [bind].
  rewrite !change_pct_spec by assumption. cbn [bind].
  rewrite (cagr_spec libm_pow df end_date w W5Y _ Hv Hw).
  rewrite (cagr_spec libm_pow df end_date w W10Y _ Hv Hw).
  reflexivity.
Qed.

(** A frame of fewer than 2 rows gives no row and no trace. *)
Lemma table_row_short libm_pow key name end_date w df :
  (length df < 2)%nat ->
  table_row libm_pow key name end_date w df = Ok None.
Proof.
  intros Hlen. unfold table_row.
  replace ((length df =? 0)%nat || (length df <? 2)%nat) with true; [reflexivity|].
  symmetry. apply orb_true_iff. right. apply Nat.ltb_lt. exact Hlen.
Qed.

Lemma chart_trace_short name df :
  (length df < 2)%nat -> chart_trace name df = Ok None.
Proof.
  intros Hlen. unfold chart_trace.
  replace ((length df =? 0)%nat || (length df <? 2)%nat) with true; [reflexivity|].
  symmetry. apply orb_true_iff. right. apply Nat.ltb_lt. exact Hlen.
Qed.

(** ** The loops over a basket *)

Section Loops.

Variable libm_pow : float -> float -> float.
Variable historical : string -> Z * Z * Z -> exc DataFrame.

(** A turn of a loop that appends at most one element. *)
Lemma fold_left_skip {A B : Type} (step : list A -> B -> list A)
    (item : B) (before after : list B) :
  (forall acc, step acc item = acc) ->
  fold_left step (before ++ item :: after) []
  = fold_left step (before ++ after) [].
Proof.
  intros Hskip. rewrite !fold_left_app. cbn [fold_left].
  rewrite Hskip. reflexivity.
Qed.

Lemma table_step_short key end_date w symbol name df :
  historical symbol (strftime_ymd (start_10y w)) = Ok df ->
  (length df < 2)%nat ->
  forall results,
    table_step libm_pow historical key end_date w results (symbol, name)
    = results.
Proof.
  intros Hf Hlen results. unfold table_step. rewrite Hf. cbn [bind].
  rewrite table_row_short by exact Hlen. reflexivity.
Qed.

Lemma chart_step_short start_date_str symbol name df :
  historical symbol start_date_str = Ok df ->
  (length df < 2)%nat ->
  forall figure,
    chart_step historical start_date_str figure (symbol, name) = figure.
Proof.
  intros Hf Hlen figure. unfold chart_step. rewrite Hf. cbn [bind].
  rewrite chart_trace_short by exact Hlen. reflexivity.
Qed.

(** Every trace of a figure comes from a symbol of the basket whose frame
    has at least two rows. *)
Lemma chart_fold_traces start_date_str symbols :
  forall figure trace,
    In trace (fold_left (chart_step historical start_date_str) symbols figure) ->
    In trace figure
    \/ exists symbol name df,
         In (symbol, name) symbols
         /\ historical symbol start_date_str = Ok df
         /\ (2 <= length df)%nat
         /\ chart_trace name df = Ok (Some trace).
Proof.
  induction symbols as [|[symbol name] symbols IH]; intros figure trace Hin.
  - left. exact Hin.
  - cbn [fold_left] in Hin. apply IH in Hin.
    destruct Hin as [Hin | (s & n & df & Hs & Hf & Hl & Ht)].
    + unfold chart_step in Hin.
      destruct (historical symbol start_date_str) as [df|e] eqn:Hf;
        cbn [bind] in Hin; [|left; exact Hin].
      destruct (chart_trace name df) as [[tr|]|e] eqn:Ht; try (left; exact Hin).
      apply in_app_or in Hin as [Hin|[<-|[]]]; [left; exact Hin|].
      right. exists symbol, name, df.
      split; [left; reflexivity|]. split; [exact Hf|]. split; [|exact Ht].
      destruct (Nat.lt_ge_cases (length df) 2) as [Hlt|Hge]; [|exact Hge].
      rewrite chart_trace_short in Ht by exact Hlt. discriminate.
    + right. exists s, n, df. split; [right; exact Hs|]. auto.
Qed.

End Loops.

(** ** Rows of a table *)

Lemma table_row_Some libm_pow key name end_date w df row :
  table_row libm_pow key name end_date w df = Ok (Some row) ->
  (2 <= length df)%nat /\ label_key row = key /\ label row = name
  /\ Value row = py_round (np_round (last_close df) 2) 1.
Proof.
  intros H.
  destruct (Nat.lt_ge_cases (length df) 2) as [Hlt|Hge].
  { rewrite table_row_short in H by exact Hlt. discriminate. }
  split; [exact Hge|].
  unfold table_row in H.
  replace ((length df =? 0)%nat || (length df <? 2)%nat) with false in H.
  2:{ symmetry. apply orb_false_iff. split.
      - apply Nat.eqb_neq. lia.
      - apply Nat.ltb_ge. lia. }
  rewrite (iloc_last_nonempty df (length_two_nonempty df Hge)) in H.
  cbn [bind] in H.
  destruct (change_pct df (start_5d w)) as [v1|]; [|discriminate].
  destruct (change_pct df (start_mtd w)) as [v2|]; [|discriminate].
  destruct (change_pct df (start_ytd w)) as [v3|]; [|discriminate].
  cbn [bind] in H.
  destruct (cagr libm_pow df end_date (start_5y w) _) as [v4|]; [|discriminate].
  destruct (cagr libm_pow df end_date (start_10y w) _) as [v5|]; [|discriminate].
  cbn [bind] in H. injection H as <-. cbn. auto.
Qed.

Section TableLoop.

Variable libm_pow : float -> float -> float.
Variable historical : string -> Z * Z * Z -> exc DataFrame.
Variables (key : string) (end_date : datetime) (w : windows).

Lemma table_fold_keeps symbols :
  forall results row,
    In row results ->
    In row (fold_left (table_step libm_pow historical key end_date w)
              symbols results).
Proof.
  induction symbols as [|[symbol name] symbols IH]; intros results row Hin;
    [exact Hin|].
  cbn [fold_left]. apply IH. unfold table_step.
  destruct (historical symbol _) as [df|e]; cbn [bind]; [|exact Hin].
  destruct (table_row _ _ _ _ _ df) as [[r|]|e]; try exact Hin.
  apply in_or_app. left. exact Hin.
Qed.

Lemma table_fold_adds symbols symbol name df row :
  In (symbol, name) symbols ->
  historical symbol (strftime_ymd (start_10y w)) = Ok df ->
  table_row libm_pow key name end_date w df = Ok (Some row) ->
  forall results,
    In row (fold_left (table_step libm_pow historical key end_date w)
              symbols results).
Proof.
  intros Hin Hf Hrow.
  induction symbols as [|[s n] symbols IH]; intros results; [destruct Hin|].
  cbn [fold_left]. destruct Hin as [[= -> ->]|Hin].
  - apply table_fold_keeps. unfold table_step. rewrite Hf. cbn [bind].
    rewrite Hrow. apply in_or_app. right. left. reflexivity.
  - apply IH. exact Hin.
Qed.

(** Every row of a table comes from a symbol of the basket. *)
Lemma table_fold_rows symbols :
  forall results row,
    In row (fold_left (table_step libm_pow historical key end_date w)
              symbols results) ->
    In row results
    \/ exists symbol name df,
         In (symbol, name) symbols
         /\ historical symbol (strftime_ymd (start_10y w)) = Ok df
         /\ table_row libm_pow key name end_date w df = Ok (Some row).
Proof.
  induction symbols as [|[symbol name] symbols IH]; intros results row Hin.
  - left. exact Hin.
  - cbn [fold_left] in Hin. apply IH in Hin.
    destruct Hin as [Hin | (s & n & df & Hs & Hf & Hr)].
    + unfold table_step in Hin.
      destruct (historical symbol _) as [df|e] eqn:Hf;
        cbn [bind] in Hin; [|left; exact Hin].
      destruct (table_row _ _ _ _ _ df) as [[r|]|e] eqn:Hr;
        try (left; exact Hin).
      apply in_app_or in Hin as [Hin|[<-|[]]]; [left; exact Hin|].
      right. exists symbol, name, df.
      split; [left; reflexivity|]. split; assumption.
    + right. exists s, n, df. split; [right; exact Hs|]. auto.
Qed.

End TableLoop.

(** The row of a symbol with sufficient, ascending data is in the table. *)
Lemma table_endpoint_row libm_pow historical key symbols end_date w symbol
    name df :
  valid_datetime end_date = true ->
  table_windows end_date = Ok w ->
  In (symbol, name) symbols ->
  historical symbol (strftime_ymd (start_10y w)) = Ok df ->
  ascending df -> (2 <= length df)%nat ->
  exists rows,
    table_endpoint libm_pow historical key symbols end_date = Ok rows
    /\ In (expected_row libm_pow key name end_date w df) rows.
Proof.
  intros Hv Hw Hin Hf Hs Hlen. unfold table_endpoint. rewrite Hw. cbn [bind].
  eexists. split; [reflexivity|].
  apply (table_fold_adds libm_pow historical key end_date w symbols symbol name df);
    try assumption.
  apply table_row_spec; assumption.
Qed.

(** ** Window resolver *)

Lemma valid_date_inv y m d :
  valid_date y m d = true ->
  1 <= y <= 9999 /\ 1 <= m <= 12 /\ 1 <= d <= days_in_month y m.
Proof.
  unfold valid_date, MINYEAR, MAXYEAR.
  repeat rewrite andb_true_iff. repeat rewrite Z.leb_le. lia.
Qed.

Lemma valid_date_intro y m d :
  1 <= y <= 9999 -> 1 <= m <= 12 -> 1 <= d <= days_in_month y m ->
  valid_date y m d = true.
Proof.
  unfold valid_date, MINYEAR, MAXYEAR.
  repeat rewrite andb_true_iff. repeat rewrite Z.leb_le. lia.
Qed.

Lemma days_in_month_ge_28 y m : 1 <= m <= 12 -> 28 <= days_in_month y m.
Proof.
  intros Hm. unfold days_in_month.
  assert (Hc : m = 1 \/ m = 2 \/ m = 3 \/ m = 4 \/ m = 5 \/ m = 6 \/ m = 7
               \/ m = 8 \/ m = 9 \/ m = 10 \/ m = 11 \/ m = 12) by lia.
  destruct Hc as [->|[->|[->|[->|[->|[->|[->|[->|[->|[->|[->| ->]]]]]]]]]]];
    cbn -[Z.add Z.sub Z.mul]; try lia.
  destruct (is_leap y); cbn; lia.
Qed.

(** A day that is not February 29 exists in every year. *)
Lemma valid_date_other_year y y' m d :
  valid_date y m d = true -> ~ (m = 2 /\ d = 29) -> 1 <= y' <= 9999 ->
  valid_date y' m d = true.
Proof.
  intros Hv Hn Hy'. apply valid_date_inv in Hv as (Hy & Hm & Hd).
  apply valid_date_intro; try lia.
  unfold days_in_month in *.
  destruct (m =? 2) eqn:Em; cbn [andb] in *; [|lia].
  apply Z.eqb_eq in Em. subst m.
  destruct (is_leap y), (is_leap y'); cbn -[Z.add Z.sub Z.mul] in *; lia.
Qed.

Lemma day_of_year_bounds y m d :
  valid_date y m d = true ->
  1 <= days_before_month y m + d <= (if is_leap y then 366 else 365).
Proof.
  intros Hv. apply valid_date_inv in Hv as (Hy & Hm & Hd).
  unfold days_before_month, days_in_month in *.
  assert (Hc : m = 1 \/ m = 2 \/ m = 3 \/ m = 4 \/ m = 5 \/ m = 6 \/ m = 7
               \/ m = 8 \/ m = 9 \/ m = 10 \/ m = 11 \/ m = 12) by lia.
  destruct Hc as [->|[->|[->|[->|[->|[->|[->|[->|[->|[->|[->| ->]]]]]]]]]]];
    destruct (is_leap y); cbn -[Z.add Z.sub Z.mul] in *; lia.
Qed.

(** The ordinals of the calendar's dates. *)
Lemma ymd2ord_bounds y m d :
  valid_date y m d = true ->
  365 * (y - 1) + 1 <= ymd2ord y m d <= MAXORDINAL.
Proof.
  intros Hv. pose proof (day_of_year_bounds y m d Hv) as Hd.
  apply valid_date_inv in Hv as (Hy & _ & _).
  unfold ymd2ord, MAXORDINAL, days_before_year.
  destruct (is_leap y) eqn:L.
  - apply is_leap_spec in L. Z.to_euclidean_division_equations. lia.
  - Z.to_euclidean_division_equations. lia.
Qed.

Lemma datetime_ymd_valid y m d :
  valid_date y m d = true -> datetime_ymd y m d = Ok (mk_datetime y m d 0 0 0 0).
Proof. intros H. unfold datetime_ymd. rewrite H. reflexivity. Qed.

Lemma datetime_ymd_invalid y m d :
  valid_date y m d = false -> datetime_ymd y m d = Raise ValueError.
Proof. intros H. unfold datetime_ymd. rewrite H. reflexivity. Qed.

(** Five days before a date of year 2 or later there is a date. *)
Lemma sub_timedelta_days_5 dt :
  valid_date (year dt) (month dt) (day dt) = true -> 2 <= year dt ->
  exists d5, sub_timedelta_days dt 5 = Ok d5.
Proof.
  intros Hv Hy. pose proof (ymd2ord_bounds _ _ _ Hv) as Hb.
  fold (toordinal dt) in Hb. unfold sub_timedelta_days.
  replace ((0 <? toordinal dt - 5) && (toordinal dt - 5 <=? MAXORDINAL))
    with true.
  - destruct (ord2ymd (toordinal dt - 5)) as [[y m] d]. eauto.
  - symmetry. apply andb_true_iff. rewrite Z.ltb_lt, Z.leb_le.
    unfold MAXORDINAL in *. lia.
Qed.

Lemma to_datetime_sub_days dt n s :
  sub_timedelta_days dt n = Ok s ->
  to_datetime s = to_datetime dt - n * us_per_day.
Proof.
  intros H. apply sub_timedelta_days_spec in H as (_ & Ho & Hh & Hm & Hs & Hu).
  unfold to_datetime. rewrite Ho, Hh, Hm, Hs, Hu. lia.
Qed.

Lemma feb29_is_leap y :
  valid_date y 2 29 = true -> is_leap y = true /\ 4 <= y.
Proof.
  intros Hv. apply valid_date_inv in Hv as (Hy & _ & Hd).
  unfold days_in_month in Hd. cbn [Z.eqb Pos.eqb andb] in Hd.
  destruct (is_leap y) eqn:L; [|cbn in Hd; lia].
  split; [reflexivity|]. apply is_leap_spec in L.
  Z.to_euclidean_division_equations. lia.
Qed.

(** Five years before a leap year there is no February 29. *)
Lemma feb29_five_years_before y :
  is_leap y = true -> valid_date (y - 5) 2 29 = false.
Proof.
  intros L. apply is_leap_spec in L.
  assert (L' : is_leap (y - 5) = false).
  { apply is_leap_false. left. Z.to_euclidean_division_equations. lia. }
  unfold valid_date, days_in_month. rewrite L'. cbn [Z.eqb Pos.eqb andb DAYS_IN_MONTH].
  replace (29 <=? 28) with false by reflexivity.
  rewrite !andb_false_r. reflexivity.
Qed.

(** On February 29 both resolvers raise [ValueError]. *)
Lemma resolvers_fail_on_feb29 end_date :
  valid_datetime end_date = true -> month end_date = 2 -> day end_date = 29 ->
  table_windows end_date = Raise ValueError
  /\ time_periods end_date = Raise ValueError.
Proof.
  intros Hv Hm Hd. unfold valid_datetime in Hv.
  apply andb_true_iff in Hv as [Hv _].
  pose proof Hv as Hv'. rewrite Hm, Hd in Hv'.
  destruct (feb29_is_leap _ Hv') as [L Hy].
  pose proof (valid_date_inv _ _ _ Hv') as (Hy' & _ & _).
  destruct (sub_timedelta_days_5 end_date Hv ltac:(lia)) as [d5 H5].
  unfold table_windows, time_periods.
  rewrite H5, Hm, Hd.
  rewrite (datetime_ymd_valid (year end_date) 1 1)
    by (apply valid_date_intro; cbn; lia).
  rewrite (datetime_ymd_valid (year end_date) 2 1)
    by (apply valid_date_intro; [lia | lia | unfold days_in_month; rewrite L; cbn; lia]).
  rewrite (datetime_ymd_invalid (year end_date - 5) 2 29)
    by (apply feb29_five_years_before; exact L).
  split; reflexivity.
Qed.

(** C10: when [datetime.now()] falls on February 29, every table endpoint and
    every chart endpoint fails for the whole request with the [ValueError] of
    [datetime(now.year - 5, 2, 29)], whatever the basket, the period token
    and the provider's data: the window starts are computed before the loop
    over the symbols and outside its [try]. *)
Theorem C10_feb29_fails_whole_request :
  forall (libm_pow : float -> float -> float)
         (historical : string -> Z * Z * Z -> exc DataFrame)
         (key : string) (symbols : list (string * string))
         (end_date : datetime) (start_date theme : option string),
    valid_datetime end_date = true ->
    month end_date = 2 -> day end_date = 29 ->
    table_endpoint libm_pow historical key symbols end_date = Raise ValueError
    /\ performance_endpoint historical symbols end_date start_date theme
       = Raise ValueError.
Proof.
  intros libm_pow historical key symbols end_date start_date theme Hv Hm Hd.
  destruct (resolvers_fail_on_feb29 end_date Hv Hm Hd) as [Ht Hc].
  unfold table_endpoint, performance_endpoint, chart_start.
  rewrite Ht, Hc. split; reflexivity.
Qed.

(** C10, instance: on 2028-02-29. *)
Lemma C10_witness :
  get_volatility_table (fun x _ => x) (fun _ _ => Raise ProviderError)
    (mk_datetime 2028 2 29 9 30 0 0) = Raise ValueError
  /\ get_volatility_performance (fun _ _ => Raise ProviderError)
       (mk_datetime 2028 2 29 9 30 0 0) (Some "5d"%string) None
     = Raise ValueError.
Proof.
  apply (C10_feb29_fails_whole_request (fun x _ => x)
           (fun _ _ => Raise ProviderError) "Index"%string
           [("^VIX", "VIX"); ("MOVE", "MOVE")]%string
           (mk_datetime 2028 2 29 9 30 0 0) (Some "5d"%string) None);
    reflexivity.
Defined.

(** C5 (counterexample): on 2028-02-29 neither resolver maps any token: the
    table windows and the chart's [time_periods] raise [ValueError], so even
    ["ytd"] resolves to nothing. *)
Lemma C5_counterexample :
  table_windows (mk_datetime 2028 2 29 9 30 0 0) = Raise ValueError
  /\ time_periods (mk_datetime 2028 2 29 9 30 0 0) = Raise ValueError
  /\ chart_start (mk_datetime 2028 2 29 9 30 0 0) "ytd" = Raise ValueError.
Proof. repeat split; reflexivity. Qed.

(** C5 (amended): for every reference date [now] from year 11 on that is
    not a February 29, the chart endpoints' [time_periods] and the table
    endpoints' window starts are the same five dates: 5d is [now] minus five
    calendar days (same time of day), mtd the first day of [now]'s month, ytd
    the first day of [now]'s year, 5y and 10y the same month and day five and
    ten years earlier, the last four at midnight. *)
Theorem C5_window_resolver :
  forall end_date : datetime,
    valid_datetime end_date = true ->
    11 <= year end_date ->
    ~ (month end_date = 2 /\ day end_date = 29) ->
    exists d5 : datetime,
      let mtd := mk_datetime (year end_date) (month end_date) 1 0 0 0 0 in
      let ytd := mk_datetime (year end_date) 1 1 0 0 0 0 in
      let y5 :=
        mk_datetime (year end_date - 5) (month end_date) (day end_date) 0 0 0 0 in
      let y10 :=
        mk_datetime (year end_date - 10) (month end_date) (day end_date) 0 0 0 0 in
      time_periods end_date
      = Ok [("5d", d5); ("mtd", mtd); ("ytd", ytd); ("5y", y5); ("10y", y10)]%string
      /\ table_windows end_date = Ok (mk_windows ytd mtd d5 y5 y10)
      /\ to_datetime d5 = to_datetime end_date - 5 * us_per_day
      /\ toordinal d5 = toordinal end_date - 5
      /\ valid_datetime d5 = true.
Proof.
  intros end_date Hv Hy Hn. unfold valid_datetime in Hv.
  apply andb_true_iff in Hv as [Hd Ht].
  pose proof (valid_date_inv _ _ _ Hd) as (Hy' & Hm & Hday).
  destruct (sub_timedelta_days_5 end_date Hd ltac:(lia)) as [d5 H5].
  exists d5. cbv zeta.
  unfold time_periods, table_windows. rewrite H5.
  rewrite (datetime_ymd_valid (year end_date) 1 1)
    by (apply valid_date_intro; cbn; lia).
  rewrite (datetime_ymd_valid (year end_date) (month end_date) 1)
    by (apply valid_date_intro;
        [lia | lia | pose proof (days_in_month_ge_28 (year end_date) _ Hm); lia]).
  rewrite (datetime_ymd_valid (year end_date - 5) (month end_date) (day end_date))
    by (apply (valid_date_other_year (year end_date)); [assumption | assumption | lia]).
  rewrite (datetime_ymd_valid (year end_date - 10) (month end_date) (day end_date))
    by (apply (valid_date_other_year (year end_date)); [assumption | assumption | lia]).
  cbn [bind].
  pose proof (to_datetime_sub_days _ _ _ H5) as Hts.
  apply sub_timedelta_days_spec in H5 as (Hv5 & Ho & Hh & Hmi & Hs & Hu).
  repeat split; try assumption.
  unfold valid_datetime. rewrite Hv5. cbn [andb].
  unfold valid_time in *. rewrite Hh, Hmi, Hs, Hu. exact Ht.
Qed.

(** C5, instance: on 2024-06-15, 13:30. *)
Lemma C5_witness :
  exists d5 : datetime,
    time_periods (mk_datetime 2024 6 15 13 30 0 5)
    = Ok [("5d", d5);
          ("mtd", mk_datetime 2024 6 1 0 0 0 0);
          ("ytd", mk_datetime 2024 1 1 0 0 0 0);
          ("5y", mk_datetime 2019 6 15 0 0 0 0);
          ("10y", mk_datetime 2014 6 15 0 0 0 0)]%string
    /\ table_windows (mk_datetime 2024 6 15 13 30 0 5)
       = Ok (mk_windows (mk_datetime 2024 1 1 0 0 0 0)
               (mk_datetime 2024 6 1 0 0 0 0) d5
               (mk_datetime 2019 6 15 0 0 0 0)
               (mk_datetime 2014 6 15 0 0 0 0))
    /\ to_datetime d5
       = to_datetime (mk_datetime 2024 6 15 13 30 0 5) - 5 * us_per_day
    /\ toordinal d5 = toordinal (mk_datetime 2024 6 15 13 30 0 5) - 5
    /\ valid_datetime d5 = true.
Proof.
  apply (C5_window_resolver (mk_datetime 2024 6 15 13 30 0 5)).
  - reflexivity.
  - cbn. lia.
  - cbn. intros [H _]. discriminate H.
Defined.

(** Five days before March 3 of a leap year is February 27. *)
Example five_days_before_march_3 :
  time_periods (mk_datetime 2024 3 3 13 30 0 5)
  = Ok [("5d", mk_datetime 2024 2 27 13 30 0 5);
        ("mtd", mk_datetime 2024 3 1 0 0 0 0);
        ("ytd", mk_datetime 2024 1 1 0 0 0 0);
        ("5y", mk_datetime 2019 3 3 0 0 0 0);
        ("10y", mk_datetime 2014 3 3 0 0 0 0)]%string.
Proof. reflexivity. Qed.

(** ** Period tokens of the chart endpoints *)

Lemma time_periods_Ok end_date periods :
  time_periods end_date = Ok periods ->
  exists d5 mtd ytd y5 y10,
    periods
    = [("5d", d5); ("mtd", mtd); ("ytd", ytd); ("5y", y5); ("10y", y10)]%string.
Proof.
  unfold time_periods.
  destruct (sub_timedelta_days end_date 5) as [d5|]; [|discriminate].
  destruct (datetime_ymd (year end_date) (month end_date) 1) as [mtd|];
    [|discriminate].
  destruct (datetime_ymd (year end_date) 1 1) as [ytd|]; [|discriminate].
  destruct (datetime_ymd (year end_date - 5) _ _) as [y5|]; [|discriminate].
  destruct (datetime_ymd (year end_date - 10) _ _) as [y10|]; [|discriminate].
  cbn [bind]. intros [= <-]. eauto 6.
Qed.

Lemma period_tokens_lower tok : In tok period_tokens -> lower tok = tok.
Proof.
  intros [<-|[<-|[<-|[<-|[<-|[]]]]]]; reflexivity.
Qed.

Lemma dict_get_unknown (A : Type) (d5 mtd ytd y5 y10 default : A) key :
  ~ In key period_tokens ->
  dict_get [("5d", d5); ("mtd", mtd); ("ytd", ytd); ("5y", y5); ("10y", y10)]%string
    key default = default.
Proof.
  intros Hn. cbn [dict_get].
  repeat match goal with
         | |- context [String.eqb ?k key] =>
             destruct (String.eqb_spec k key) as [E|_];
             [exfalso; apply Hn; rewrite <- E; cbn; tauto|]
         end.
  reflexivity.
Qed.

Lemma chart_start_lower end_date start_date tok :
  lower start_date = lower tok ->
  chart_start end_date start_date = chart_start end_date tok.
Proof. intros H. unfold chart_start. rewrite H. reflexivity. Qed.

(** A string that is no token resolves as ["ytd"]. *)
Lemma chart_start_unknown end_date start_date :
  ~ In (lower start_date) period_tokens ->
  chart_start end_date start_date = chart_start end_date "ytd".
Proof.
  intros Hn. unfold chart_start.
  destruct (time_periods end_date) as [periods|e] eqn:Hp; [|reflexivity].
  destruct (time_periods_Ok _ _ Hp) as (d5 & mtd & ytd & y5 & y10 & ->).
  cbn [bind dict_item String.eqb Ascii.eqb Bool.eqb andb].
  rewrite dict_get_unknown by exact Hn. reflexivity.
Qed.

Lemma chart_start_total end_date periods start_date :
  time_periods end_date = Ok periods ->
  exists start, chart_start end_date start_date = Ok start.
Proof.
  intros Hp. unfold chart_start. rewrite Hp.
  destruct (time_periods_Ok _ _ Hp) as (d5 & mtd & ytd & y5 & y10 & ->).
  cbn [bind dict_item String.eqb Ascii.eqb Bool.eqb andb]. eauto.
Qed.

Lemma chart_start_token end_date periods tok :
  In tok period_tokens ->
  time_periods end_date = Ok periods ->
  exists start, In (tok, start) periods /\ chart_start end_date tok = Ok start.
Proof.
  intros Hin Hp. unfold chart_start. rewrite Hp.
  destruct (time_periods_Ok _ _ Hp) as (d5 & mtd & ytd & y5 & y10 & ->).
  destruct Hin as [<-|[<-|[<-|[<-|[<-|[]]]]]]; cbn; eexists;
    (split; [|reflexivity]); tauto.
Qed.

Lemma performance_endpoint_start historical symbols end_date s1 s2 theme :
  chart_start end_date s1 = chart_start end_date s2 ->
  performance_endpoint historical symbols end_date (Some s1) theme
  = performance_endpoint historical symbols end_date (Some s2) theme.
Proof.
  intros H. unfold performance_endpoint. cbn [with_default]. rewrite H.
  reflexivity.
Qed.

(** C6: on every chart endpoint a [start_date] that is none of the five
    tokens once lower-cased resolves exactly as ["ytd"] does, and so does an
    absent [start_date]; any casing of a token resolves as the token itself,
    to that token's entry of [time_periods]; and wherever [time_periods]
    could be built, every string resolves to a start date without an
    error. *)
Theorem C6_chart_period_default :
  forall (historical : string -> Z * Z * Z -> exc DataFrame)
         (symbols : list (string * string)) (end_date : datetime)
         (theme : option string) (start_date : string),
    (~ In (lower start_date) period_tokens ->
       chart_start end_date start_date = chart_start end_date "ytd"
       /\ performance_endpoint historical symbols end_date (Some start_date) theme
          = performance_endpoint historical symbols end_date (Some "ytd"%string) theme)
    /\ (forall tok, In tok period_tokens -> lower start_date = tok ->
          chart_start end_date start_date = chart_start end_date tok
          /\ performance_endpoint historical symbols end_date (Some start_date) theme
             = performance_endpoint historical symbols end_date (Some tok) theme
          /\ forall periods, time_periods end_date = Ok periods ->
               exists start, In (tok, start) periods
                             /\ chart_start end_date start_date = Ok start)
    /\ performance_endpoint historical symbols end_date None theme
       = performance_endpoint historical symbols end_date (Some "ytd"%string) theme
    /\ (forall periods, time_periods end_date = Ok periods ->
          exists start, chart_start end_date start_date = Ok start).
Proof.
  intros historical symbols end_date theme start_date.
  split; [|split; [|split]].
  - intros Hn. pose proof (chart_start_unknown end_date start_date Hn) as H.
    split; [exact H | apply performance_endpoint_start; exact H].
  - intros tok Hin Hl.
    assert (H : chart_start end_date start_date = chart_start end_date tok).
    { apply chart_start_lower. rewrite Hl. symmetry.
      apply period_tokens_lower. exact Hin. }
    split; [exact H|]. split; [apply performance_endpoint_start; exact H|].
    intros periods Hp. rewrite H. apply chart_start_token; assumption.
  - reflexivity.
  - intros periods Hp. apply (chart_start_total end_date periods). exact Hp.
Qed.

(** C6, instance: for the strings XYZ and 10Y. *)
Lemma C6_witness :
  (chart_start (mk_datetime 2024 6 15 13 30 0 5) "XYZ"
   = chart_start (mk_datetime 2024 6 15 13 30 0 5) "ytd"
   /\ get_volatility_performance (fun _ _ => Raise ProviderError)
        (mk_datetime 2024 6 15 13 30 0 5) (Some "XYZ"%string) None
      = get_volatility_performance (fun _ _ => Raise ProviderError)
          (mk_datetime 2024 6 15 13 30 0 5) (Some "ytd"%string) None)
  /\ chart_start (mk_datetime 2024 6 15 13 30 0 5) "10Y"
     = Ok (mk_datetime 2014 6 15 0 0 0 0).
Proof.
  pose proof (C6_chart_period_default (fun _ _ => Raise ProviderError)
                [("^VIX", "VIX"); ("MOVE", "MOVE")]%string
                (mk_datetime 2024 6 15 13 30 0 5) None "XYZ"%string)
    as (Hunknown & _).
  pose proof (C6_chart_period_default (fun _ _ => Raise ProviderError)
                [("^VIX", "VIX"); ("MOVE", "MOVE")]%string
                (mk_datetime 2024 6 15 13 30 0 5) None "10Y"%string)
    as (_ & Hcase & _).
  split.
  - apply Hunknown. cbn. intros [H|[H|[H|[H|[H|[]]]]]]; discriminate H.
  - destruct (Hcase "10y"%string) as (H & _).
    + cbn. tauto.
    + reflexivity.
    + rewrite H. reflexivity.
Defined.

(** ** Report assembler *)

(** C7: a symbol whose fetched frame is empty or has a single row adds
    nothing to the output of an endpoint: the result of the request is the
    result for the basket without that symbol, so there is no row and no trace
    for it and the symbols before and after it are processed as usual.  The
    frame is the one the provider returns for the start date the request
    asks for. *)
Theorem C7_short_series_skipped :
  forall (libm_pow : float -> float -> float)
         (historical : string -> Z * Z * Z -> exc DataFrame)
         (key : string) (end_date : datetime)
         (before after : list (string * string)) (symbol name : string),
    ((forall w, table_windows end_date = Ok w ->
        exists df, historical symbol (strftime_ymd (start_10y w)) = Ok df
                   /\ (length df < 2)%nat) ->
     table_endpoint libm_pow historical key
       (before ++ (symbol, name) :: after) end_date
     = table_endpoint libm_pow historical key (before ++ after) end_date)
    /\ (forall start_date theme : option string,
          (forall start,
              chart_start end_date (with_default "ytd" start_date) = Ok start ->
              exists df, historical symbol (strftime_ymd start) = Ok df
                         /\ (length df < 2)%nat) ->
          performance_endpoint historical
            (before ++ (symbol, name) :: after) end_date start_date theme
          = performance_endpoint historical (before ++ after) end_date
              start_date theme).
Proof.
  intros libm_pow historical key end_date before after symbol name. split.
  - intros Hshort. unfold table_endpoint.
    destruct (table_windows end_date) as [w|e] eqn:Hw; [|reflexivity].
    destruct (Hshort w eq_refl) as (df & Hf & Hlen).
    cbn [bind]. f_equal. apply fold_left_skip.
    apply (table_step_short libm_pow historical key end_date w symbol name df);
      assumption.
  - intros start_date theme Hshort. unfold performance_endpoint.
    destruct (chart_start end_date (with_default "ytd" start_date))
      as [start|e] eqn:Hs; [|reflexivity].
    destruct (Hshort start eq_refl) as (df & Hf & Hlen).
    cbn [bind]. f_equal. apply fold_left_skip.
    apply (chart_step_short historical (strftime_ymd start) symbol name df);
      assumption.
Qed.

(** C7, instance: the sample provider has a single row for MOVE. *)
Lemma C7_witness :
  table_endpoint no_libm sample_historical "Index"
    (app [("^VIX", "VIX")]%string [("MOVE", "MOVE")]%string) sample_now
  = table_endpoint no_libm sample_historical "Index"
      (app [("^VIX", "VIX")]%string []) sample_now
  /\ performance_endpoint sample_historical
       (app [("^VIX", "VIX")]%string [("MOVE", "MOVE")]%string) sample_now None None
     = performance_endpoint sample_historical
         (app [("^VIX", "VIX")]%string []) sample_now None None.
Proof.
  destruct (C7_short_series_skipped no_libm sample_historical "Index"
              sample_now [("^VIX", "VIX")]%string [] "MOVE" "MOVE")
    as [Htable Hchart].
  split.
  - apply Htable. intros w _. exists frame_single.
    split; [reflexivity | cbn; lia].
  - apply Hchart. intros start _. exists frame_single.
    split; [reflexivity | cbn; lia].
Defined.

(** ** Chart traces *)

Lemma chart_trace_spec name first rest :
  (1 <= length rest)%nat ->
  chart_trace name (first :: rest) = Ok (Some (normalized_trace name first rest)).
Proof.
  intros Hlen. unfold chart_trace.
  replace ((length (first :: rest) =? 0)%nat || (length (first :: rest) <? 2)%nat)
    with false; [reflexivity|].
  symmetry. apply orb_false_iff. split.
  - reflexivity.
  - apply Nat.ltb_ge. cbn. lia.
Qed.

Lemma chart_trace_Some name df trace :
  chart_trace name df = Ok (Some trace) ->
  exists first rest,
    df = first :: rest /\ (1 <= length rest)%nat
    /\ trace = normalized_trace name first rest.
Proof.
  intros H. destruct df as [|first [|second rest]];
    try (cbn in H; discriminate).
  exists first, (second :: rest). split; [reflexivity|].
  split; [cbn; lia|].
  rewrite chart_trace_spec in H by (cbn; lia). congruence.
Qed.

Lemma normalized_trace_first name first rest :
  is_finite (close first) = true -> is_zero (close first) = false ->
  hd_error (y (normalized_trace name first rest)) = Some 100%float.
Proof.
  intros Hf Hz. cbn. rewrite normalized_first by assumption. reflexivity.
Qed.

Section ChartLoop.

Variable historical : string -> Z * Z * Z -> exc DataFrame.
Variable start_date_str : Z * Z * Z.

Lemma chart_fold_keeps symbols :
  forall figure trace,
    In trace figure ->
    In trace (fold_left (chart_step historical start_date_str) symbols figure).
Proof.
  induction symbols as [|[symbol name] symbols IH]; intros figure trace Hin;
    [exact Hin|].
  cbn [fold_left]. apply IH. unfold chart_step.
  destruct (historical symbol start_date_str) as [df|e]; cbn [bind];
    [|exact Hin].
  destruct (chart_trace name df) as [[tr|]|e]; try exact Hin.
  apply in_or_app. left. exact Hin.
Qed.

Lemma chart_fold_adds symbols symbol name first rest :
  In (symbol, name) symbols ->
  historical symbol start_date_str = Ok (first :: rest) ->
  (1 <= length rest)%nat ->
  forall figure,
    In (normalized_trace name first rest)
       (fold_left (chart_step historical start_date_str) symbols figure).
Proof.
  intros Hin Hf Hlen.
  induction symbols as [|[s n] symbols IH]; intros figure; [destruct Hin|].
  cbn [fold_left]. destruct Hin as [[= -> ->]|Hin].
  - apply chart_fold_keeps. unfold chart_step. rewrite Hf. cbn [bind].
    rewrite chart_trace_spec by exact Hlen.
    apply in_or_app. right. left. reflexivity.
  - apply IH. exact Hin.
Qed.

End ChartLoop.

(** C8: on every chart endpoint the figure holds, for every symbol of the
    basket whose frame has at least two rows, the trace whose values are the
    closes each divided by the first close of the frame and multiplied by 100,
    and it holds no other trace; when the first close is finite and not zero
    the first value of the trace is exactly 100.0. *)
Theorem C8_chart_normalized :
  forall (historical : string -> Z * Z * Z -> exc DataFrame)
         (symbols : list (string * string)) (end_date : datetime)
         (start_date theme : option string) (start : datetime),
    chart_start end_date (with_default "ytd" start_date) = Ok start ->
    exists figure,
      performance_endpoint historical symbols end_date start_date theme
      = Ok figure
      /\ (forall symbol name first rest,
            In (symbol, name) symbols ->
            historical symbol (strftime_ymd start) = Ok (first :: rest) ->
            (1 <= length rest)%nat ->
            In (normalized_trace name first rest) figure)
      /\ (forall trace,
            In trace figure ->
            exists symbol first rest,
              In (symbol, name trace) symbols
              /\ historical symbol (strftime_ymd start) = Ok (first :: rest)
              /\ (1 <= length rest)%nat
              /\ trace = normalized_trace (name trace) first rest
              /\ y trace
                 = map (fun p => (close p / close first * 100)%float)
                       (first :: rest)
              /\ (is_finite (close first) = true ->
                  is_zero (close first) = false ->
                  hd_error (y trace) = Some 100%float)).
Proof.
  intros historical symbols end_date start_date theme start Hs.
  unfold performance_endpoint. rewrite Hs. cbn [bind].
  eexists. split; [reflexivity|]. split.
  - intros symbol name first rest Hin Hf Hlen.
    apply (chart_fold_adds historical (strftime_ymd start) symbols symbol);
      assumption.
  - intros trace Hin.
    apply chart_fold_traces in Hin as [[]|(symbol & nm & df & Hsym & Hf & _ & Ht)].
    apply chart_trace_Some in Ht as (first & rest & -> & Hlen & ->).
    exists symbol, first, rest. cbn [name normalized_trace].
    repeat split; try assumption.
    intros Hfin Hz. apply (normalized_trace_first nm first rest Hfin Hz).
Qed.

(** C8, instance: on the volatility basket with the sample provider. *)
Lemma C8_witness :
  exists figure,
    performance_endpoint sample_historical
      [("^VIX", "VIX"); ("MOVE", "MOVE")]%string sample_now None None
    = Ok figure
    /\ (forall symbol name first rest,
          In (symbol, name) [("^VIX", "VIX"); ("MOVE", "MOVE")]%string ->
          sample_historical symbol
            (strftime_ymd (mk_datetime 2024 1 1 0 0 0 0))
          = Ok (first :: rest) ->
          (1 <= length rest)%nat ->
          In (normalized_trace name first rest) figure)
    /\ (forall trace,
          In trace figure ->
          exists symbol first rest,
            In (symbol, name trace) [("^VIX", "VIX"); ("MOVE", "MOVE")]%string
            /\ sample_historical symbol
                 (strftime_ymd (mk_datetime 2024 1 1 0 0 0 0))
               = Ok (first :: rest)
            /\ (1 <= length rest)%nat
            /\ trace = normalized_trace (name trace) first rest
            /\ y trace
               = map (fun p => (close p / close first * 100)%float)
                     (first :: rest)
            /\ (is_finite (close first) = true ->
                is_zero (close first) = false ->
                hd_error (y trace) = Some 100%float)).
Proof.
  apply (C8_chart_normalized sample_historical
           [("^VIX", "VIX"); ("MOVE", "MOVE")]%string sample_now None None
           (mk_datetime 2024 1 1 0 0 0 0)).
  reflexivity.
Defined.

(** The chart of the sample provider: MOVE has a single row and no trace;
    the VIX trace starts at 100. *)
Example sample_chart :
  get_volatility_performance sample_historical sample_now (Some "YTD"%string)
    None
  = Ok [{| x := [day_start 2020 1 1; day_start 2024 6 14];
           y := [100; (0.7490234375 / 0.75 * 100)]%float;
           mode := "lines";
           name := "VIX" |}].
Proof. reflexivity. Qed.

(** ** Table fields *)

(** C2 (counterexample): for the last close 0.7490234375 the row's Value is
    0.8, while rounding that close to one decimal gives 0.7, with Python's
    [round] and with numpy's alike. *)
Lemma C2_counterexample :
  (forall libm_pow,
      table_endpoint libm_pow (fun _ _ => Ok frame_rounding) "Index"
        [("^VIX", "VIX")]%string sample_now
      = Ok [{| label_key := "Index"; label := "VIX";
               f5D := Some 0%float; fMTD := Some 0%float; fYTD := Some 0%float;
               f5Y := Some 0%float; f10Y := Some 0%float;
               Value := (8 / 10)%float |}])
  /\ last_close frame_rounding = 0.7490234375%float
  /\ py_round (last_close frame_rounding) 1 = (7 / 10)%float
  /\ np_round (last_close frame_rounding) 1 = (7 / 10)%float.
Proof. repeat split; intros; reflexivity. Qed.

(** C2 (amended): in every table the Value of a row is the last close of the
    symbol's frame rounded to 2 decimals by numpy and the result rounded to 1
    decimal by Python's [round]; every row comes from a symbol of the basket
    whose frame has at least 2 rows, and every symbol with an ascending frame
    of at least 2 rows has its row. *)
Theorem C2_value_two_stage_rounding :
  forall (libm_pow : float -> float -> float)
         (historical : string -> Z * Z * Z -> exc DataFrame)
         (key : string) (symbols : list (string * string))
         (end_date : datetime) (w : windows),
    valid_datetime end_date = true ->
    table_windows end_date = Ok w ->
    exists rows,
      table_endpoint libm_pow historical key symbols end_date = Ok rows
      /\ (forall row, In row rows ->
            exists symbol df,
              In (symbol, label row) symbols
              /\ historical symbol (strftime_ymd (start_10y w)) = Ok df
              /\ (2 <= length df)%nat
              /\ Value row = py_round (np_round (last_close df) 2) 1)
      /\ (forall symbol name df,
            In (symbol, name) symbols ->
            historical symbol (strftime_ymd (start_10y w)) = Ok df ->
            ascending df -> (2 <= length df)%nat ->
            exists row,
              In row rows /\ label row = name
              /\ Value row = py_round (np_round (last_close df) 2) 1).
Proof.
  intros libm_pow historical key symbols end_date w Hv Hw.
  unfold table_endpoint. rewrite Hw. cbn [bind].
  eexists. split; [reflexivity|]. split.
  - intros row Hin.
    apply table_fold_rows in Hin as [[]|(symbol & name & df & Hs & Hf & Hr)].
    apply table_row_Some in Hr as (Hlen & _ & Hl & Hval).
    exists symbol, df. rewrite Hl. auto.
  - intros symbol name df Hin Hf Hs Hlen.
    exists (expected_row libm_pow key name end_date w df).
    split; [|split; reflexivity].
    apply (table_fold_adds libm_pow historical key end_date w symbols symbol name df);
      try assumption.
    apply table_row_spec; assumption.
Qed.

(** C2, instance: on the volatility basket with the sample provider. *)
Lemma C2_witness :
  exists rows,
    get_volatility_table no_libm sample_historical sample_now = Ok rows
    /\ (forall row, In row rows ->
          exists symbol df,
            In (symbol, label row) [("^VIX", "VIX"); ("MOVE", "MOVE")]%string
            /\ sample_historical symbol (strftime_ymd (start_10y sample_windows))
               = Ok df
            /\ (2 <= length df)%nat
            /\ Value row = py_round (np_round (last_close df) 2) 1)
    /\ (forall symbol name df,
          In (symbol, name) [("^VIX", "VIX"); ("MOVE", "MOVE")]%string ->
          sample_historical symbol (strftime_ymd (start_10y sample_windows))
          = Ok df ->
          ascending df -> (2 <= length df)%nat ->
          exists row,
            In row rows /\ label row = name
            /\ Value row = py_round (np_round (last_close df) 2) 1).
Proof.
  apply (C2_value_two_stage_rounding no_libm sample_historical "Index"
           [("^VIX", "VIX"); ("MOVE", "MOVE")]%string sample_now sample_windows);
    reflexivity.
Defined.

Lemma ascending_two (p q : PricePoint) : index p < index q -> ascending [p; q].
Proof.
  intros H. unfold ascending. repeat constructor. exact H.
Qed.

(** C3: for every strictly ascending frame with at least 2 rows and each
    trailing window (5D, MTD, YTD) the change is computed without an
    exception and the metric is absent when no row is at or after the window
    start; otherwise it is [(latest_close - window_close) / window_close * 100],
    with the unrounded last close and the close of the first row at or after
    the window start, rounded to 1 decimal and written through the row's
    encoding (a NaN value is written as the absent field).  The first part
    states it for the computation at any window start, the second for the
    three fields of the row a table request builds. *)
Theorem C3_trailing_window_metrics :
  forall df : DataFrame,
    ascending df -> (2 <= length df)%nat ->
    (forall start : datetime,
        exists v,
          change_pct df start = Ok v
          /\ match first_on_or_after df (to_datetime start) with
             | None => field v = None
             | Some p =>
                 let q := ((last_close df - close p) / close p * 100)%float in
                 field v = if is_nan q then None else Some (py_round q 1)
             end)
    /\ (forall (libm_pow : float -> float -> float) (key name : string)
               (end_date : datetime) (w : windows) (tw : trailing_window),
          valid_datetime end_date = true ->
          table_windows end_date = Ok w ->
          exists row,
            table_row libm_pow key name end_date w df = Ok (Some row)
            /\ match first_on_or_after df (to_datetime (trailing_start w tw)) with
               | None => trailing_field row tw = None
               | Some p =>
                   let q := ((last_close df - close p) / close p * 100)%float in
                   trailing_field row tw
                   = if is_nan q then None else Some (py_round q 1)
               end).
Proof.
  intros df Hs Hlen.
  assert (Hfield : forall start,
             match first_on_or_after df (to_datetime start) with
             | None => field (trailing_value df start) = None
             | Some p =>
                 let q := ((last_close df - close p) / close p * 100)%float in
                 field (trailing_value df start)
                 = if is_nan q then None else Some (py_round q 1)
             end).
  { intros start. unfold trailing_value.
    destruct (first_on_or_after df _) as [p|]; [|reflexivity].
    cbv zeta. unfold field. destruct (is_nan _); reflexivity. }
  split.
  - intros start. exists (trailing_value df start).
    split; [|apply Hfield].
    apply change_pct_spec; [exact Hs | apply length_two_nonempty; exact Hlen].
  - intros libm_pow key name end_date w tw Hv Hw.
    exists (expected_row libm_pow key name end_date w df).
    split; [apply table_row_spec; assumption|].
    assert (H : trailing_field (expected_row libm_pow key name end_date w df) tw
                = field (trailing_value df (trailing_start w tw)))
      by (destruct tw; reflexivity).
    rewrite H. apply Hfield.
Qed.

(** C3, instance: on a two-row frame, for the 5D start and for the YTD field. *)
Lemma C3_witness :
  (exists v,
      change_pct frame_rounding (start_5d sample_windows) = Ok v
      /\ match first_on_or_after frame_rounding
                 (to_datetime (start_5d sample_windows)) with
         | None => field v = None
         | Some p =>
             let q :=
               ((last_close frame_rounding - close p) / close p * 100)%float in
             field v = if is_nan q then None else Some (py_round q 1)
         end)
  /\ (exists row,
        table_row no_libm "Index" "VIX" sample_now sample_windows frame_rounding
        = Ok (Some row)
        /\ match first_on_or_after frame_rounding
                   (to_datetime (trailing_start sample_windows WYTD)) with
           | None => trailing_field row WYTD = None
           | Some p =>
               let q :=
                 ((last_close frame_rounding - close p) / close p * 100)%float in
               trailing_field row WYTD
               = if is_nan q then None else Some (py_round q 1)
           end).
Proof.
  destruct (C3_trailing_window_metrics frame_rounding) as [Hany Hrow].
  - apply ascending_two. vm_compute. reflexivity.
  - cbn. lia.
  - split.
    + apply Hany.
    + apply Hrow; reflexivity.
Defined.

(** A window that starts after the last row leaves its field absent, and a
    rise from 0.75 to 1 since the start of the year is written as 33.3. *)
Example trailing_fields_sample :
  forall libm_pow,
  exists row,
    table_row libm_pow "Index" "VIX" (mk_datetime 2024 6 20 9 0 0 0)
      (mk_windows (mk_datetime 2024 1 1 0 0 0 0) (mk_datetime 2024 6 1 0 0 0 0)
         (mk_datetime 2024 6 15 9 0 0 0) (mk_datetime 2019 6 20 0 0 0 0)
         (mk_datetime 2014 6 20 0 0 0 0))
      [mk_point (day_start 2024 1 2) 0.75; mk_point (day_start 2024 6 14) 1]
    = Ok (Some row)
    /\ f5D row = None /\ fMTD row = Some 0%float
    /\ fYTD row = Some (333 / 10)%float.
Proof.
  intros libm_pow. eexists. split.
  - apply table_row_spec;
      [reflexivity | reflexivity
       | apply ascending_two; vm_compute; reflexivity | cbn; lia].
  - repeat split; reflexivity.
Qed.

(** C4: for every strictly ascending frame with at least 2 rows and each
    CAGR window (5Y, 10Y) the row is built, and its field for the window is
    absent when no row is at or after the window start; otherwise it is
    [((latest_price / window_close) ** (1 / years) - 1) * 100] with
    [latest_price] the last close rounded to 2 decimals, [window_close] the
    close of the first row at or after the window start and
    [years = (end_date - window_start).days / 365.25] counted from the window
    start itself, rounded to 1 decimal and written through the row's encoding
    (a NaN value is written as the absent field). *)
Theorem C4_cagr_window_metrics :
  forall (libm_pow : float -> float -> float) (key name : string)
         (end_date : datetime) (w : windows) (df : DataFrame)
         (cw : cagr_window),
    valid_datetime end_date = true ->
    table_windows end_date = Ok w ->
    ascending df -> (2 <= length df)%nat ->
    exists row,
      table_row libm_pow key name end_date w df = Ok (Some row)
      /\ sub_days end_date (cagr_start w cw)
         = toordinal end_date - toordinal (cagr_start w cw)
      /\ match first_on_or_after df (to_datetime (cagr_start w cw)) with
         | None => cagr_field row cw = None
         | Some p =>
             let latest_price := np_round (last_close df) 2 in
             let days := toordinal end_date - toordinal (cagr_start w cw) in
             let years := (float_of_int days / 365.25)%float in
             let v :=
               ((c_pow libm_pow (latest_price / close p) (1 / years) - 1)
                * 100)%float in
             cagr_field row cw = if is_nan v then None else Some (py_round v 1)
         end.
Proof.
  intros libm_pow key name end_date w df cw Hv Hw Hs Hlen.
  exists (expected_row libm_pow key name end_date w df).
  split; [apply table_row_spec; assumption|].
  split; [apply (cagr_window_days end_date w cw Hv Hw)|].
  assert (H : cagr_field (expected_row libm_pow key name end_date w df) cw
              = field (cagr_value libm_pow df end_date (cagr_start w cw)))
    by (destruct cw; reflexivity).
  rewrite H. unfold cagr_value, cagr_exponent.
  destruct (first_on_or_after df _) as [p|]; [|reflexivity].
  cbv zeta. unfold field. destruct (is_nan _); reflexivity.
Qed.

(** C4, instance: on the series of the specification's example, for the 5Y window. *)
Lemma C4_witness :
  exists row,
    table_row no_libm "Index" "VIX" sparse_now sparse_windows frame_sparse
    = Ok (Some row)
    /\ sub_days sparse_now (cagr_start sparse_windows W5Y)
       = toordinal sparse_now - toordinal (cagr_start sparse_windows W5Y)
    /\ match first_on_or_after frame_sparse
               (to_datetime (cagr_start sparse_windows W5Y)) with
       | None => cagr_field row W5Y = None
       | Some p =>
           let latest_price := np_round (last_close frame_sparse) 2 in
           let days :=
             toordinal sparse_now - toordinal (cagr_start sparse_windows W5Y) in
           let years := (float_of_int days / 365.25)%float in
           let v :=
             ((c_pow no_libm (latest_price / close p) (1 / years) - 1)
              * 100)%float in
           cagr_field row W5Y = if is_nan v then None else Some (py_round v 1)
       end.
Proof.
  apply (C4_cagr_window_metrics no_libm "Index" "VIX" sparse_now
           sparse_windows frame_sparse W5Y).
  - reflexivity.
  - reflexivity.
  - apply ascending_two. vm_compute. reflexivity.
  - cbn. lia.
Defined.

(** C1 (counterexample): a zero window close with a positive latest price
    makes both CAGR fields infinite, not absent: the first row at or after
    the 5Y and the 10Y start has close 0, the division gives [+inf], the
    power and the percentage stay [+inf], and [np.isnan] lets it through. *)
Lemma C1_counterexample :
  first_on_or_after frame_zero_close (to_datetime (start_5y sample_windows))
  = Some (mk_point (day_start 2020 1 1) 0)
  /\ (forall libm_pow,
        table_endpoint libm_pow (fun _ _ => Ok frame_zero_close) "Index"
          [("^VIX", "VIX")]%string sample_now
        = Ok [{| label_key := "Index"; label := "VIX";
                 f5D := Some 0%float; fMTD := Some 0%float;
                 fYTD := Some 0%float;
                 f5Y := Some infinity; f10Y := Some infinity;
                 Value := 5 |}]).
Proof. split; intros; reflexivity. Qed.

(** C1 (amended): in every table and for every symbol whose frame is
    strictly ascending with at least 2 rows, if the window close of a CAGR
    window is such that the rounded latest price divided by it is a finite
    negative number (a negative close under a positive price), the power is
    NaN and the CAGR field of that window is absent on a row that is still
    produced with all its other fields; no exception reaches the caller. *)
Theorem C1_negative_base_absent :
  forall (libm_pow : float -> float -> float)
         (historical : string -> Z * Z * Z -> exc DataFrame)
         (key : string) (symbols : list (string * string))
         (end_date : datetime) (w : windows) (symbol name : string)
         (df : DataFrame) (cw : cagr_window) (p : PricePoint),
    valid_datetime end_date = true ->
    table_windows end_date = Ok w ->
    In (symbol, name) symbols ->
    historical symbol (strftime_ymd (start_10y w)) = Ok df ->
    ascending df -> (2 <= length df)%nat ->
    first_on_or_after df (to_datetime (cagr_start w cw)) = Some p ->
    (np_round (last_close df) 2 / close p <? zero)%float = true ->
    is_infinity (np_round (last_close df) 2 / close p) = false ->
    exists rows row,
      table_endpoint libm_pow historical key symbols end_date = Ok rows
      /\ In row rows
      /\ label row = name
      /\ cagr_field row cw = None
      /\ (forall tw, trailing_field row tw
                     = field (trailing_value df (trailing_start w tw)))
      /\ (forall cw', cagr_field row cw'
                      = field (cagr_value libm_pow df end_date (cagr_start w cw')))
      /\ Value row = py_round (np_round (last_close df) 2) 1.
Proof.
  intros libm_pow historical key symbols end_date w symbol name df cw p
    Hv Hw Hin Hf Hs Hlen Hp Hneg Hfin.
  destruct (table_endpoint_row libm_pow historical key symbols end_date w
              symbol name df Hv Hw Hin Hf Hs Hlen) as (rows & Hrows & Hrow).
  exists rows, (expected_row libm_pow key name end_date w df).
  assert (Hall : forall cw', cagr_field (expected_row libm_pow key name end_date w df) cw'
                 = field (cagr_value libm_pow df end_date (cagr_start w cw')))
    by (intros []; reflexivity).
  repeat split; try assumption.
  - rewrite Hall. unfold cagr_value. rewrite Hp.
    destruct (cagr_exponent_spec end_date w cw Hv Hw)
      as (_ & _ & _ & Hefin & Heint & _).
    rewrite c_pow_negative_base by assumption. reflexivity.
  - intros []; reflexivity.
Qed.

(** C1, instance: on the volatility basket with a window close of -4. *)
Lemma C1_witness :
  exists rows row,
    get_volatility_table no_libm (fun _ _ => Ok frame_negative_close) sample_now
    = Ok rows
    /\ In row rows
    /\ label row = "MOVE"%string
    /\ cagr_field row W5Y = None
    /\ (forall tw, trailing_field row tw
                   = field (trailing_value frame_negative_close
                              (trailing_start sample_windows tw)))
    /\ (forall cw', cagr_field row cw'
                    = field (cagr_value no_libm frame_negative_close sample_now
                               (cagr_start sample_windows cw')))
    /\ Value row = py_round (np_round (last_close frame_negative_close) 2) 1.
Proof.
  apply (C1_negative_base_absent no_libm (fun _ _ => Ok frame_negative_close)
           "Index" [("^VIX", "VIX"); ("MOVE", "MOVE")]%string sample_now
           sample_windows "MOVE" "MOVE" frame_negative_close W5Y
           (mk_point (day_start 2020 1 1) (-4))).
  - reflexivity.
  - reflexivity.
  - right. left. reflexivity.
  - reflexivity.
  - apply ascending_two. vm_compute. reflexivity.
  - cbn. lia.
  - reflexivity.
  - reflexivity.
  - reflexivity.
Defined.

(** A negative window close under a positive price: both CAGR fields are
    absent and the rest of the row is there, whatever the math library. *)
Example negative_close_row :
  forall libm_pow,
    table_row libm_pow "Index" "VIX" sample_now sample_windows
      frame_negative_close
    = Ok (Some {| label_key := "Index"; label := "VIX";
                  f5D := Some 0%float; fMTD := Some 0%float;
                  fYTD := Some 0%float; f5Y := None; f10Y := None;
                  Value := 5 |}).
Proof. intros libm_pow. reflexivity. Qed.

(** ** Special values in the metrics *)

Lemma Prim2SF_nan : Prim2SF nan = S754_nan.
Proof. vm_compute. reflexivity. Qed.

Lemma Prim2SF_hundred : exists m e, Prim2SF 100%float = S754_finite false m e.
Proof. eexists. eexists. vm_compute. reflexivity. Qed.

(** The class tests of a float, read off its IEEE 754 class. *)
Lemma SF_tests (c : float) :
  match Prim2SF c with
  | S754_zero _ => is_zero c = true /\ is_nan c = false /\ is_infinity c = false
  | S754_infinity _ =>
      is_zero c = false /\ is_nan c = false /\ is_infinity c = true
  | S754_nan => is_zero c = false /\ is_nan c = true /\ is_infinity c = false
  | S754_finite _ _ _ =>
      is_zero c = false /\ is_nan c = false /\ is_infinity c = false
  end.
Proof.
  pose proof (SF2Prim_Prim2SF c) as H.
  destruct (Prim2SF c) as [[|]|[|]| |s m e] eqn:Hc;
    try (cbn in H; subst c; vm_compute; repeat split; reflexivity).
  destruct (finite_SF_tests c s m e Hc) as (A & B & C). auto.
Qed.

Lemma is_zero_SF (c : float) :
  is_zero c = true -> exists s, Prim2SF c = S754_zero s.
Proof.
  intros H. pose proof (SF_tests c) as T.
  destruct (Prim2SF c) as [s|s| |s m e]; [eauto | | |];
    destruct T as (T & _); congruence.
Qed.

Lemma is_nan_eq (c : float) : is_nan c = true -> c = nan.
Proof.
  intros H. pose proof (SF_tests c) as T. apply Prim2SF_inj.
  rewrite Prim2SF_nan.
  destruct (Prim2SF c) as [s|s| |s m e]; [| |reflexivity|];
    destruct T as (_ & T & _); congruence.
Qed.

Lemma SF_not_finite (v : float) :
  (Prim2SF v = S754_nan \/ exists s, Prim2SF v = S754_infinity s) ->
  is_finite v = false.
Proof.
  intros H. pose proof (SF_tests v) as T. unfold is_finite.
  destruct H as [H|[s H]]; rewrite H in T; destruct T as (_ & A & B);
    rewrite A, B; reflexivity.
Qed.

(** Arithmetic on NaN. *)
Lemma nan_sub (c : float) : (nan - c)%float = nan.
Proof.
  apply Prim2SF_inj. rewrite sub_spec, Prim2SF_nan. reflexivity.
Qed.

Lemma nan_div (c : float) : (nan / c)%float = nan.
Proof.
  apply Prim2SF_inj. rewrite div_spec, Prim2SF_nan. reflexivity.
Qed.

Lemma nan_change (c : float) : ((nan - c) / c * 100)%float = nan.
Proof. rewrite nan_sub, nan_div. reflexivity. Qed.

(** [c - c] is [+0] for a finite [c]. *)
Lemma sub_self_zero (c : float) s m e :
  Prim2SF c = S754_finite s m e -> Prim2SF (c - c) = S754_zero false.
Proof.
  intros Hc. rewrite sub_spec, Hc. unfold SF64sub, SFsub.
  cbv zeta. rewrite Z.sub_diag. reflexivity.
Qed.

(** The change of a price against itself is a zero. *)
Lemma zero_change (c : float) :
  is_finite c = true -> is_zero c = false ->
  is_zero ((c - c) / c * 100) = true.
Proof.
  intros Hf Hz.
  destruct (finite_nonzero_SF c Hf Hz) as (s & m & e & Hc).
  destruct Prim2SF_hundred as (mh & eh & Hh).
  pose proof (SF_tests ((c - c) / c * 100)) as T.
  rewrite mul_spec, div_spec, (sub_self_zero c s m e Hc), Hc, Hh in T.
  cbn in T. apply T.
Qed.

(** Division by a zero never gives a finite value. *)
Lemma div_zero_not_finite (c z : float) :
  is_zero z = true -> is_finite (c / z * 100) = false.
Proof.
  intros Hz. destruct (is_zero_SF z Hz) as (sz & Hsz).
  destruct Prim2SF_hundred as (mh & eh & Hh).
  apply SF_not_finite. rewrite mul_spec, div_spec, Hsz, Hh.
  destruct (Prim2SF c) as [s|s| |s m e]; cbn; eauto.
Qed.

Lemma zero_div_zero (c z : float) :
  is_zero c = true -> is_zero z = true -> (c / z * 100)%float = nan.
Proof.
  intros Hc Hz. destruct (is_zero_SF z Hz) as (sz & Hsz).
  destruct (is_zero_SF c Hc) as (sc & Hsc).
  apply Prim2SF_inj. rewrite mul_spec, div_spec, Hsz, Hsc. reflexivity.
Qed.

(** A float above zero is not below it. *)
Lemma positive_not_negative (e : float) :
  (zero <? e)%float = true -> (e <? zero)%float = false.
Proof.
  rewrite !ltb_spec, Prim2SF_zero.
  destruct (Prim2SF e) as [[|]|[|]| |[|] m e']; cbn; congruence.
Qed.

Lemma odd_integer_is_integer (y : float) :
  is_odd_integer y = true -> is_integer y = true.
Proof.
  unfold is_odd_integer, is_integer.
  destruct (Prim2SF y) as [s|s| |s m e]; try discriminate.
  destruct (0 <=? e); [reflexivity|].
  intros H. apply andb_true_iff in H as [H _]. rewrite H. reflexivity.
Qed.

Lemma non_integer_not_odd (y : float) :
  is_integer y = false -> is_odd_integer y = false.
Proof.
  intros H. destruct (is_odd_integer y) eqn:Ho; [|reflexivity].
  apply odd_integer_is_integer in Ho. congruence.
Qed.

Lemma cagr_exponent_root end_date w cw :
  valid_datetime end_date = true ->
  table_windows end_date = Ok w ->
  root_exponent (cagr_exponent end_date (cagr_start w cw)).
Proof.
  intros Hv Hw.
  destruct (cagr_exponent_spec end_date w cw Hv Hw)
    as (_ & _ & _ & Hf & Hi & Hp & _).
  unfold is_finite in Hf. apply negb_true_iff, orb_false_iff in Hf as [Hn Hinf].
  repeat split; auto using non_integer_nonzero, positive_not_negative,
    non_integer_not_odd.
Qed.

(** C99 F.10.4.4 on the bases a price ratio can degenerate to, for an
    exponent of a CAGR window. *)
Lemma c_pow_nan libm_pow (e : float) :
  root_exponent e -> c_pow libm_pow nan e = nan.
Proof.
  intros (Hz & _). unfold c_pow. rewrite Hz. reflexivity.
Qed.

Lemma c_pow_zero libm_pow (x e : float) :
  root_exponent e -> is_zero x = true -> c_pow libm_pow x e = zero.
Proof.
  intros (Hz & Hn & Hi & Hneg & Hodd) Hx.
  destruct (is_zero_SF x Hx) as (s & Hs).
  pose proof (SF_tests x) as T. rewrite Hs in T. destruct T as (_ & Tn & Ti).
  unfold c_pow. rewrite Hz, Tn, Hn, Hi, Hx, Hneg, Hodd.
  replace (x =? one)%float with false; [reflexivity|].
  rewrite eqb_spec, Hs, Prim2SF_one. destruct s; reflexivity.
Qed.

Lemma c_pow_infinite libm_pow (x e : float) :
  root_exponent e -> is_infinity x = true -> c_pow libm_pow x e = infinity.
Proof.
  intros (Hz & Hn & Hi & Hneg & Hodd) Hx.
  pose proof (SF_tests x) as T.
  assert (Hs : exists s, Prim2SF x = S754_infinity s).
  { destruct (Prim2SF x) as [s|s| |s m e']; [|eauto| |];
      destruct T as (_ & _ & T); congruence. }
  destruct Hs as (s & Hs). rewrite Hs in T. destruct T as (Tz & Tn & _).
  unfold c_pow. rewrite Hz, Tn, Hn, Hi, Tz, Hx, Hneg, Hodd.
  replace (x =? one)%float with false.
  2:{ rewrite eqb_spec, Hs, Prim2SF_one. destruct s; reflexivity. }
  cbn. destruct (x <? zero)%float; reflexivity.
Qed.

(** A non-zero number divided by a zero is an infinity. *)
Lemma div_zero_infinite (c z : float) :
  is_nan c = false -> is_zero c = false -> is_zero z = true ->
  is_infinity (c / z) = true.
Proof.
  intros Hn Hc Hz. destruct (is_zero_SF z Hz) as (sz & Hsz).
  pose proof (SF_tests c) as Tc. pose proof (SF_tests (c / z)) as T.
  rewrite div_spec, Hsz in T.
  destruct (Prim2SF c) as [s|s| |s m e];
    try (destruct Tc as (A & B & _); congruence); cbn in T; apply T.
Qed.

Lemma change_from_zero_infinite (c z : float) :
  is_nan c = false -> is_zero c = false -> is_zero z = true ->
  is_infinity ((c - z) / z * 100) = true.
Proof.
  intros Hn Hc Hz. destruct (is_zero_SF z Hz) as (sz & Hsz).
  destruct Prim2SF_hundred as (mh & eh & Hh).
  pose proof (SF_tests c) as Tc.
  pose proof (SF_tests ((c - z) / z * 100)) as T.
  rewrite mul_spec, div_spec, sub_spec, Hsz, Hh in T.
  destruct (Prim2SF c) as [s|s| |s m e];
    try (destruct Tc as (A & B & _); congruence); cbn in T; apply T.
Qed.

(** A zero divided by anything but a zero or a NaN is a zero. *)
Lemma zero_div (z c : float) :
  is_zero z = true -> is_nan c = false -> is_zero c = false ->
  is_zero (z / c) = true.
Proof.
  intros Hz Hn Hc. destruct (is_zero_SF z Hz) as (sz & Hsz).
  pose proof (SF_tests c) as Tc. pose proof (SF_tests (z / c)) as T.
  rewrite div_spec, Hsz in T.
  destruct (Prim2SF c) as [s|s| |s m e];
    try (destruct Tc as (A & B & _); congruence); cbn in T; apply T.
Qed.

Lemma field_infinite (v : float) :
  is_infinity v = true -> field v = Some v.
Proof.
  intros H. pose proof (SF_tests v) as T. unfold field, py_round.
  destruct (Prim2SF v) as [s|s| |s m e];
    try (destruct T as (_ & _ & T); congruence).
  destruct T as (_ & T & _). rewrite T. reflexivity.
Qed.

Lemma field_zero (v : float) : is_zero v = true -> field v = Some v.
Proof.
  intros H. pose proof (SF_tests v) as T. unfold field, py_round.
  destruct (Prim2SF v) as [s|s| |s m e];
    try (destruct T as (T & _); congruence).
  destruct T as (_ & T & _). rewrite T. reflexivity.
Qed.


(** ** Safety of the CAGR computation *)





(** The example of the specification: the only row at or after the 5Y start
    is the last one, the elapsed time is still the five years of the window
    (1826 days), and the 5Y CAGR is 0.0. *)
Example sparse_example :
  first_on_or_after frame_sparse (to_datetime (start_5y sparse_windows))
  = Some (mk_point (day_start 2020 1 1) 100)
  /\ sub_days sparse_now (start_5y sparse_windows) = 1826
  /\ forall libm_pow,
       cagr libm_pow frame_sparse sparse_now (start_5y sparse_windows)
         (np_round (last_close frame_sparse) 2)
       = Ok zero.
Proof. repeat split; intros; reflexivity. Qed.

(** The same series with a last close of 0: the only row at or after the 5Y
    start is the last one, latest price and window close are both 0, and the
    5Y CAGR is absent, not 0.0; the 10Y CAGR, from the close of 50, is
    -100.0. *)
Example sparse_last_zero :
  first_on_or_after frame_sparse_last_zero
    (to_datetime (start_5y sparse_windows))
  = Some (mk_point (day_start 2020 1 1) 0)
  /\ forall libm_pow,
       table_row libm_pow "Index" "VIX" sparse_now sparse_windows
         frame_sparse_last_zero
       = Ok (Some {| label_key := "Index"; label := "VIX";
                     f5D := None; fMTD := None; fYTD := None;
                     f5Y := None; f10Y := Some (-100)%float;
                     Value := 0 |}).
Proof. split; intros; reflexivity. Qed.

(** ** Order of the output *)

Lemma subsequence_app {A : Type} (s1 f1 s2 f2 : list A) :
  subsequence s1 f1 -> subsequence s2 f2 -> subsequence (s1 ++ s2) (f1 ++ f2).
Proof.
  intros H1 H2. induction H1; cbn; [exact H2 | |]; constructor; assumption.
Qed.

Lemma subsequence_length {A : Type} (sub full : list A) :
  subsequence sub full -> (length sub <= length full)%nat.
Proof. intros H. induction H; cbn; lia. Qed.

Section OrderOfRows.

Variable libm_pow : float -> float -> float.
Variable historical : string -> Z * Z * Z -> exc DataFrame.
Variables (key : string) (end_date : datetime) (w : windows).

(** A turn of the table loop appends what it would put in an empty list. *)
Lemma table_step_appends results item :
  table_step libm_pow historical key end_date w results item
  = results ++ table_step libm_pow historical key end_date w [] item.
Proof.
  destruct item as [symbol name]. unfold table_step.
  destruct (bind _ _) as [[row|]|e]; cbn; try rewrite app_nil_r; reflexivity.
Qed.

Lemma table_fold_flat_map symbols :
  forall results,
    fold_left (table_step libm_pow historical key end_date w) symbols results
    = results
      ++ flat_map (table_step libm_pow historical key end_date w []) symbols.
Proof.
  induction symbols as [|item symbols IH]; intros results; cbn [fold_left flat_map].
  - rewrite app_nil_r. reflexivity.
  - rewrite IH, table_step_appends, app_assoc. reflexivity.
Qed.

Lemma table_step_label item :
  table_step libm_pow historical key end_date w [] item = []
  \/ exists row,
       table_step libm_pow historical key end_date w [] item = [row]
       /\ label row = snd item /\ label_key row = key.
Proof.
  destruct item as [symbol name]. unfold table_step.
  destruct (historical symbol _) as [df|e]; cbn [bind]; [|left; reflexivity].
  destruct (table_row _ _ _ _ _ df) as [[row|]|e] eqn:Hr;
    try (left; reflexivity).
  apply table_row_Some in Hr as (_ & Hk & Hl & _).
  right. exists row. cbn. auto.
Qed.

Lemma table_labels_subsequence symbols :
  subsequence
    (map label (flat_map (table_step libm_pow historical key end_date w []) symbols))
    (map snd symbols)
  /\ Forall (fun row => label_key row = key)
       (flat_map (table_step libm_pow historical key end_date w []) symbols).
Proof.
  induction symbols as [|item symbols [IH1 IH2]]; cbn [flat_map map].
  - split; constructor.
  - destruct (table_step_label item) as [->|(row & -> & Hl & Hk)]; cbn.
    + split; [constructor; exact IH1 | exact IH2].
    + rewrite Hl. split; constructor; assumption.
Qed.

End OrderOfRows.

Section OrderOfTraces.

Variable historical : string -> Z * Z * Z -> exc DataFrame.
Variable start_date_str : Z * Z * Z.

Lemma chart_step_appends figure item :
  chart_step historical start_date_str figure item
  = figure ++ chart_step historical start_date_str [] item.
Proof.
  destruct item as [symbol name]. unfold chart_step.
  destruct (bind _ _) as [[trace|]|e]; cbn; try rewrite app_nil_r; reflexivity.
Qed.

Lemma chart_fold_flat_map symbols :
  forall figure,
    fold_left (chart_step historical start_date_str) symbols figure
    = figure ++ flat_map (chart_step historical start_date_str []) symbols.
Proof.
  induction symbols as [|item symbols IH]; intros figure; cbn [fold_left flat_map].
  - rewrite app_nil_r. reflexivity.
  - rewrite IH, chart_step_appends, app_assoc. reflexivity.
Qed.

Lemma chart_step_name item :
  chart_step historical start_date_str [] item = []
  \/ exists trace,
       chart_step historical start_date_str [] item = [trace]
       /\ name trace = snd item
       /\ length (x trace) = length (y trace)
       /\ (2 <= length (y trace))%nat.
Proof.
  destruct item as [symbol nm]. unfold chart_step.
  destruct (historical symbol _) as [df|e]; cbn [bind]; [|left; reflexivity].
  destruct (chart_trace nm df) as [[trace|]|e] eqn:Ht; try (left; reflexivity).
  apply chart_trace_Some in Ht as (first & rest & -> & Hlen & ->).
  right. eexists. split; [reflexivity|]. cbn. rewrite !length_map.
  repeat split. lia.
Qed.

Lemma chart_names_subsequence symbols :
  subsequence
    (map name (flat_map (chart_step historical start_date_str []) symbols))
    (map snd symbols)
  /\ Forall (fun trace => length (x trace) = length (y trace)
                          /\ (2 <= length (y trace))%nat)
       (flat_map (chart_step historical start_date_str []) symbols).
Proof.
  induction symbols as [|item symbols [IH1 IH2]]; cbn [flat_map map].
  - split; constructor.
  - destruct (chart_step_name item) as [->|(trace & -> & Hn & Hl)]; cbn.
    + split; [constructor; exact IH1 | exact IH2].
    + rewrite Hn. split; constructor; assumption.
Qed.

End OrderOfTraces.

(** X1: a table that is returned lists its rows in the order of the basket:
    the labels of the rows are the names of the basket with some left out,
    there is at most one row per symbol, and every row carries the label
    column of the endpoint. *)
Theorem X1_table_rows_in_basket_order :
  forall (libm_pow : float -> float -> float)
         (historical : string -> Z * Z * Z -> exc DataFrame)
         (key : string) (symbols : list (string * string))
         (end_date : datetime) (w : windows),
    table_windows end_date = Ok w ->
    exists rows,
      table_endpoint libm_pow historical key symbols end_date = Ok rows
      /\ subsequence (map label rows) (map snd symbols)
      /\ (length rows <= length symbols)%nat
      /\ Forall (fun row => label_key row = key) rows.
Proof.
  intros libm_pow historical key symbols end_date w Hw.
  unfold table_endpoint. rewrite Hw. cbn [bind].
  eexists. split; [reflexivity|].
  rewrite table_fold_flat_map. cbn [app].
  destruct (table_labels_subsequence libm_pow historical key end_date w symbols)
    as [Hsub Hkey].
  split; [exact Hsub|]. split; [|exact Hkey].
  apply subsequence_length in Hsub. rewrite !length_map in Hsub. exact Hsub.
Qed.

(** X1, instance: the volatility basket with the sample provider. *)
Lemma X1_witness :
  exists rows,
    get_volatility_table no_libm sample_historical sample_now = Ok rows
    /\ subsequence (map label rows) ["VIX"; "MOVE"]%string
    /\ (length rows <= 2)%nat
    /\ Forall (fun row => label_key row = "Index"%string) rows.
Proof.
  apply (X1_table_rows_in_basket_order no_libm sample_historical "Index"
           [("^VIX", "VIX"); ("MOVE", "MOVE")]%string sample_now
           sample_windows).
  reflexivity.
Defined.

(** X2: a chart that is returned holds its traces in the order of the
    basket: the names of the traces are the names of the basket with some
    left out, and every trace has as many values as dates, at least 2. *)
Theorem X2_chart_traces_in_basket_order :
  forall (historical : string -> Z * Z * Z -> exc DataFrame)
         (symbols : list (string * string)) (end_date : datetime)
         (start_date theme : option string) (start : datetime),
    chart_start end_date (with_default "ytd" start_date) = Ok start ->
    exists figure,
      performance_endpoint historical symbols end_date start_date theme
      = Ok figure
      /\ subsequence (map name figure) (map snd symbols)
      /\ (length figure <= length symbols)%nat
      /\ Forall (fun trace => length (x trace) = length (y trace)
                              /\ (2 <= length (y trace))%nat) figure.
Proof.
  intros historical symbols end_date start_date theme start Hs.
  unfold performance_endpoint. rewrite Hs. cbn [bind].
  eexists. split; [reflexivity|].
  rewrite chart_fold_flat_map. cbn [app].
  destruct (chart_names_subsequence historical (strftime_ymd start) symbols)
    as [Hsub Hlen].
  split; [exact Hsub|]. split; [|exact Hlen].
  apply subsequence_length in Hsub. rewrite !length_map in Hsub. exact Hsub.
Qed.

(** X2, instance: the volatility basket with the sample provider. *)
Lemma X2_witness :
  exists figure,
    get_volatility_performance sample_historical sample_now None None
    = Ok figure
    /\ subsequence (map name figure) ["VIX"; "MOVE"]%string
    /\ (length figure <= 2)%nat
    /\ Forall (fun trace => length (x trace) = length (y trace)
                            /\ (2 <= length (y trace))%nat) figure.
Proof.
  apply (X2_chart_traces_in_basket_order sample_historical
           [("^VIX", "VIX"); ("MOVE", "MOVE")]%string sample_now None None
           (mk_datetime 2024 1 1 0 0 0 0)).
  reflexivity.
Defined.

(** ** Provider failures *)

Section ProviderFails.

Variable libm_pow : float -> float -> float.
Variable historical : string -> Z * Z * Z -> exc DataFrame.

Lemma table_step_raise key end_date w symbol name e :
  historical symbol (strftime_ymd (start_10y w)) = Raise e ->
  forall results,
    table_step libm_pow historical key end_date w results (symbol, name)
    = results.
Proof. intros Hf results. unfold table_step. rewrite Hf. reflexivity. Qed.

Lemma chart_step_raise start_date_str symbol name e :
  historical symbol start_date_str = Raise e ->
  forall figure,
    chart_step historical start_date_str figure (symbol, name) = figure.
Proof. intros Hf figure. unfold chart_step. rewrite Hf. reflexivity. Qed.

Lemma table_fold_all_raise key end_date w symbols :
  (forall symbol name, In (symbol, name) symbols ->
     exists e, historical symbol (strftime_ymd (start_10y w)) = Raise e) ->
  forall results,
    fold_left (table_step libm_pow historical key end_date w) symbols results
    = results.
Proof.
  induction symbols as [|[symbol name] symbols IH]; intros Hall results;
    [reflexivity|].
  cbn [fold_left]. destruct (Hall symbol name (or_introl eq_refl)) as [e He].
  rewrite (table_step_raise key end_date w symbol name e He).
  apply IH. intros s n Hin. apply (Hall s n). right. exact Hin.
Qed.

Lemma chart_fold_all_raise start_date_str symbols :
  (forall symbol name, In (symbol, name) symbols ->
     exists e, historical symbol start_date_str = Raise e) ->
  forall figure,
    fold_left (chart_step historical start_date_str) symbols figure = figure.
Proof.
  induction symbols as [|[symbol name] symbols IH]; intros Hall figure;
    [reflexivity|].
  cbn [fold_left]. destruct (Hall symbol name (or_introl eq_refl)) as [e He].
  rewrite (chart_step_raise start_date_str symbol name e He).
  apply IH. intros s n Hin. apply (Hall s n). right. exact Hin.
Qed.

End ProviderFails.

(** X3: an exception of the provider for one symbol never reaches the
    caller: the table and the chart are those of the basket without that
    symbol; and when the provider fails for every symbol the table and the
    chart are empty, not an error. *)
Theorem X3_provider_failure_skipped :
  forall (libm_pow : float -> float -> float)
         (historical : string -> Z * Z * Z -> exc DataFrame)
         (key : string) (end_date : datetime) (w : windows) (start : datetime)
         (start_date theme : option string),
    table_windows end_date = Ok w ->
    chart_start end_date (with_default "ytd" start_date) = Ok start ->
    (forall before after symbol name e,
        historical symbol (strftime_ymd (start_10y w)) = Raise e ->
        table_endpoint libm_pow historical key
          (before ++ (symbol, name) :: after) end_date
        = table_endpoint libm_pow historical key (before ++ after) end_date)
    /\ (forall before after symbol name e,
          historical symbol (strftime_ymd start) = Raise e ->
          performance_endpoint historical (before ++ (symbol, name) :: after)
            end_date start_date theme
          = performance_endpoint historical (before ++ after) end_date
              start_date theme)
    /\ (forall symbols,
          (forall symbol name, In (symbol, name) symbols ->
             exists e, historical symbol (strftime_ymd (start_10y w)) = Raise e) ->
          table_endpoint libm_pow historical key symbols end_date = Ok [])
    /\ (forall symbols,
          (forall symbol name, In (symbol, name) symbols ->
             exists e, historical symbol (strftime_ymd start) = Raise e) ->
          performance_endpoint historical symbols end_date start_date theme
          = Ok []).
Proof.
  intros libm_pow historical key end_date w start start_date theme Hw Hs.
  unfold table_endpoint, performance_endpoint. rewrite Hw, Hs. cbn [bind].
  repeat split.
  - intros before after symbol name e He. f_equal. apply fold_left_skip.
    apply (table_step_raise libm_pow historical key end_date w symbol name e He).
  - intros before after symbol name e He. f_equal. apply fold_left_skip.
    apply (chart_step_raise historical (strftime_ymd start) symbol name e He).
  - intros symbols Hall. f_equal. apply table_fold_all_raise. exact Hall.
  - intros symbols Hall. f_equal. apply chart_fold_all_raise. exact Hall.
Qed.

(** X3, instance: a provider that is down. *)
Lemma X3_witness :
  get_equities_table no_libm (fun _ _ => Raise ProviderError) sample_now = Ok []
  /\ get_equity_performance (fun _ _ => Raise ProviderError) sample_now
       (Some "5y"%string) None = Ok [].
Proof.
  destruct (X3_provider_failure_skipped no_libm (fun _ _ => Raise ProviderError)
              "Index" sample_now sample_windows
              (mk_datetime 2019 6 15 0 0 0 0) (Some "5y"%string) None
              eq_refl eq_refl) as (_ & _ & Htable & Hchart).
  split.
  - apply Htable. intros symbol name _. exists ProviderError. reflexivity.
  - apply Hchart. intros symbol name _. exists ProviderError. reflexivity.
Defined.

(** ** The two resolvers *)

Lemma valid_first_days end_date :
  valid_datetime end_date = true ->
  datetime_ymd (year end_date) 1 1
  = Ok (mk_datetime (year end_date) 1 1 0 0 0 0)
  /\ datetime_ymd (year end_date) (month end_date) 1
     = Ok (mk_datetime (year end_date) (month end_date) 1 0 0 0 0)
  /\ valid_date (year end_date) 1 1 = true
  /\ valid_date (year end_date) (month end_date) 1 = true.
Proof.
  intros Hv. unfold valid_datetime in Hv. apply andb_true_iff in Hv as [Hd _].
  pose proof (valid_date_inv _ _ _ Hd) as (Hy & Hm & Hday).
  assert (V1 : valid_date (year end_date) 1 1 = true)
    by (apply valid_date_intro; cbn; lia).
  assert (V2 : valid_date (year end_date) (month end_date) 1 = true).
  { apply valid_date_intro; [lia | lia |].
    pose proof (days_in_month_ge_28 (year end_date) _ Hm). lia. }
  rewrite !datetime_ymd_valid by assumption. auto.
Qed.

Lemma resolvers_succeed_together end_date :
  valid_datetime end_date = true ->
  (exists w, table_windows end_date = Ok w)
  <-> (exists periods, time_periods end_date = Ok periods).
Proof.
  intros Hv.
  destruct (valid_first_days end_date Hv) as (E1 & E2 & _).
  unfold table_windows, time_periods. rewrite E1, E2. cbn [bind].
  destruct (sub_timedelta_days end_date 5) as [d5|e]; cbn [bind].
  2:{ split; intros [? H]; discriminate H. }
  destruct (datetime_ymd (year end_date - 5) _ _) as [y5|e]; cbn [bind].
  2:{ split; intros [? H]; discriminate H. }
  destruct (datetime_ymd (year end_date - 10) _ _) as [y10|e]; cbn [bind].
  2:{ split; intros [? H]; discriminate H. }
  split; intros _; eauto.
Qed.

(** X4: on every reference date the clock can return, the window starts of
    the table endpoints and the [time_periods] of the chart endpoints agree:
    either both are built, with the same five dates under the five tokens, or
    both raise the same exception. *)
Theorem X4_resolvers_agree :
  forall end_date : datetime,
    valid_datetime end_date = true ->
    match table_windows end_date, time_periods end_date with
    | Ok w, Ok periods =>
        periods = [("5d", start_5d w); ("mtd", start_mtd w);
                   ("ytd", start_ytd w); ("5y", start_5y w);
                   ("10y", start_10y w)]%string
    | Raise e, Raise e' => e = e'
    | _, _ => False
    end.
Proof.
  intros end_date Hv.
  destruct (valid_first_days end_date Hv) as (E1 & E2 & _).
  unfold table_windows, time_periods. rewrite E1, E2. cbn [bind].
  destruct (sub_timedelta_days end_date 5) as [d5|e]; cbn [bind];
    [|reflexivity].
  destruct (datetime_ymd (year end_date - 5) _ _) as [y5|e]; cbn [bind];
    [|reflexivity].
  destruct (datetime_ymd (year end_date - 10) _ _) as [y10|e]; cbn [bind];
    reflexivity.
Qed.

(** X4, instance: 2024-06-15. *)
Lemma X4_witness :
  match table_windows sample_now, time_periods sample_now with
  | Ok w, Ok periods =>
      periods = [("5d", start_5d w); ("mtd", start_mtd w);
                 ("ytd", start_ytd w); ("5y", start_5y w);
                 ("10y", start_10y w)]%string
  | Raise e, Raise e' => e = e'
  | _, _ => False
  end.
Proof. apply (X4_resolvers_agree sample_now). reflexivity. Defined.

(** X5: on a reference date the clock can return, the window starts are
    built exactly when the date lies in year 11 or later and is not a
    February 29; otherwise the request fails. *)
Theorem X5_resolver_succeeds_iff :
  forall end_date : datetime,
    valid_datetime end_date = true ->
    ((exists w, table_windows end_date = Ok w)
     <-> 11 <= year end_date /\ ~ (month end_date = 2 /\ day end_date = 29))
    /\ ((exists periods, time_periods end_date = Ok periods)
        <-> 11 <= year end_date /\ ~ (month end_date = 2 /\ day end_date = 29)).
Proof.
  intros end_date Hv.
  assert (Htable : (exists w, table_windows end_date = Ok w)
                   <-> 11 <= year end_date
                       /\ ~ (month end_date = 2 /\ day end_date = 29)).
  { split.
    - intros [w Hw].
      apply table_windows_Ok in Hw as (_ & _ & _ & _ & _ & V5 & V10).
      apply valid_date_inv in V10 as (Hy10 & _ & _).
      split; [lia|]. intros [Hm Hd].
      unfold valid_datetime in Hv. apply andb_true_iff in Hv as [Hdate _].
      rewrite Hm, Hd in Hdate, V5.
      destruct (feb29_is_leap _ Hdate) as [L _].
      rewrite (feb29_five_years_before _ L) in V5. discriminate.
    - intros [Hy Hn].
      destruct (valid_first_days end_date Hv) as (E1 & E2 & _).
      unfold valid_datetime in Hv. apply andb_true_iff in Hv as [Hd _].
      pose proof (valid_date_inv _ _ _ Hd) as (Hy' & _ & _).
      destruct (sub_timedelta_days_5 end_date Hd ltac:(lia)) as [d5 H5].
      unfold table_windows. rewrite E1, E2, H5.
      rewrite (datetime_ymd_valid (year end_date - 5))
        by (apply (valid_date_other_year (year end_date));
            [assumption | assumption | lia]).
      rewrite (datetime_ymd_valid (year end_date - 10))
        by (apply (valid_date_other_year (year end_date));
            [assumption | assumption | lia]).
      cbn [bind]. eauto. }
  split; [exact Htable|].
  rewrite <- Htable. symmetry. apply resolvers_succeed_together. exact Hv.
Qed.

(** X5, instance: 2024-06-15. *)
Lemma X5_witness :
  ((exists w, table_windows sample_now = Ok w)
   <-> 11 <= year sample_now /\ ~ (month sample_now = 2 /\ day sample_now = 29))
  /\ ((exists periods, time_periods sample_now = Ok periods)
      <-> 11 <= year sample_now
          /\ ~ (month sample_now = 2 /\ day sample_now = 29)).
Proof. apply (X5_resolver_succeeds_iff sample_now). reflexivity. Defined.

(** ** Order of the windows *)

Lemma to_datetime_midnight y m d :
  to_datetime (mk_datetime y m d 0 0 0 0) = ymd2ord y m d * us_per_day.
Proof. unfold to_datetime, toordinal. cbn. lia. Qed.

Lemma to_datetime_bounds dt :
  valid_time dt = true ->
  toordinal dt * us_per_day <= to_datetime dt
  < (toordinal dt + 1) * us_per_day.
Proof.
  unfold valid_time, to_datetime, us_per_day.
  repeat rewrite andb_true_iff. repeat rewrite Z.leb_le.
  repeat rewrite Z.ltb_lt. lia.
Qed.

(** The window starts of a request, oldest first. *)
Lemma window_order end_date w :
  valid_datetime end_date = true ->
  table_windows end_date = Ok w ->
  to_datetime (start_10y w) < to_datetime (start_5y w)
  /\ to_datetime (start_5y w) < to_datetime (start_ytd w)
  /\ to_datetime (start_ytd w) <= to_datetime (start_mtd w)
  /\ to_datetime (start_mtd w) <= to_datetime end_date
  /\ to_datetime (start_5y w) < to_datetime (start_5d w)
  /\ to_datetime (start_5d w) = to_datetime end_date - 5 * us_per_day.
Proof.
  intros Hv Hw.
  destruct (valid_first_days end_date Hv) as (_ & _ & V1 & V2).
  pose proof Hv as Hv'. unfold valid_datetime in Hv'.
  apply andb_true_iff in Hv' as [Hd Ht].
  pose proof (table_windows_Ok _ _ Hw) as (E1 & E2 & H5 & E5 & E10 & V5 & V10).
  pose proof (to_datetime_sub_days _ _ _ H5) as H5d.
  pose proof (to_datetime_bounds end_date Ht) as Hb.
  rewrite E1, E2, E5, E10, H5d, !to_datetime_midnight.
  pose proof (year_diff_days_tight 5 _ _ _ (or_introl eq_refl) Hd V5) as [D5 _].
  specialize (D5 eq_refl).
  assert (V10' : valid_date (year end_date - 5 - 5) (month end_date)
                   (day end_date) = true)
    by (replace (year end_date - 5 - 5) with (year end_date - 10) by lia;
        exact V10).
  pose proof (year_diff_days_tight 5 _ _ _ (or_introl eq_refl) V5 V10')
    as [D10 _].
  specialize (D10 eq_refl).
  replace (year end_date - 5 - 5) with (year end_date - 10) in D10 by lia.
  pose proof (day_of_year_bounds _ _ _ Hd) as B.
  pose proof (day_of_year_bounds _ _ _ V2) as B2.
  pose proof (valid_date_inv _ _ _ Hd) as (_ & _ & Hday).
  unfold toordinal in Hb.
  assert (O1 : ymd2ord (year end_date) 1 1 = days_before_year (year end_date) + 1)
    by (unfold ymd2ord, days_before_month; cbn; lia).
  assert (O2 : ymd2ord (year end_date) (month end_date) 1
               = days_before_year (year end_date)
                 + days_before_month (year end_date) (month end_date) + 1)
    by reflexivity.
  assert (O3 : ymd2ord (year end_date) (month end_date) (day end_date)
               = days_before_year (year end_date)
                 + days_before_month (year end_date) (month end_date)
                 + day end_date)
    by reflexivity.
  assert (B' : days_before_month (year end_date) (month end_date)
               + day end_date <= 366)
    by (destruct (is_leap (year end_date)); lia).
  unfold us_per_day in *. repeat split; lia.
Qed.

Lemma first_on_or_after_later df t1 t2 :
  t1 <= t2 ->
  first_on_or_after df t1 = None -> first_on_or_after df t2 = None.
Proof.
  intros Hle H. rewrite first_on_or_after_None in *.
  intros p Hin. specialize (H p Hin). lia.
Qed.

Lemma trailing_value_miss df start :
  first_on_or_after df (to_datetime start) = None ->
  field (trailing_value df start) = None.
Proof. intros H. unfold trailing_value. rewrite H. reflexivity. Qed.

Lemma cagr_value_miss libm_pow df end_date start :
  first_on_or_after df (to_datetime start) = None ->
  field (cagr_value libm_pow df end_date start) = None.
Proof. intros H. unfold cagr_value. rewrite H. reflexivity. Qed.

(** X6: the window starts of a request are ordered, 10Y before 5Y before
    YTD, YTD not after MTD, MTD not after now, and 5Y before 5D, which is
    exactly five days before now.  So in the row of a strictly ascending
    frame with at least 2 rows an empty window empties the later ones: no
    row at or after the YTD start leaves YTD and MTD absent, none at or after
    the 5Y start leaves 5Y, YTD, MTD and 5D absent, and none at or after the
    10Y start leaves all five metrics absent. *)
Theorem X6_windows_nested :
  forall (libm_pow : float -> float -> float) (key name : string)
         (end_date : datetime) (w : windows) (df : DataFrame),
    valid_datetime end_date = true ->
    table_windows end_date = Ok w ->
    ascending df -> (2 <= length df)%nat ->
    (to_datetime (start_10y w) < to_datetime (start_5y w)
     /\ to_datetime (start_5y w) < to_datetime (start_ytd w)
     /\ to_datetime (start_ytd w) <= to_datetime (start_mtd w)
     /\ to_datetime (start_mtd w) <= to_datetime end_date
     /\ to_datetime (start_5y w) < to_datetime (start_5d w)
     /\ to_datetime (start_5d w) = to_datetime end_date - 5 * us_per_day)
    /\ exists row,
         table_row libm_pow key name end_date w df = Ok (Some row)
         /\ (first_on_or_after df (to_datetime (start_ytd w)) = None ->
             fYTD row = None /\ fMTD row = None)
         /\ (first_on_or_after df (to_datetime (start_5y w)) = None ->
             f5Y row = None /\ fYTD row = None /\ fMTD row = None
             /\ f5D row = None)
         /\ (first_on_or_after df (to_datetime (start_10y w)) = None ->
             f10Y row = None /\ f5Y row = None /\ fYTD row = None
             /\ fMTD row = None /\ f5D row = None).
Proof.
  intros libm_pow key name end_date w df Hv Hw Hs Hlen.
  pose proof (window_order end_date w Hv Hw) as Ho.
  split; [exact Ho|].
  destruct Ho as (O1 & O2 & O3 & O4 & O5 & O6).
  exists (expected_row libm_pow key name end_date w df).
  split; [apply table_row_spec; assumption|].
  cbn [expected_row f5D fMTD fYTD f5Y f10Y].
  assert (Hytd : first_on_or_after df (to_datetime (start_ytd w)) = None ->
                 field (trailing_value df (start_ytd w)) = None
                 /\ field (trailing_value df (start_mtd w)) = None).
  { intros H. split; apply trailing_value_miss; [exact H|].
    apply (first_on_or_after_later df _ _ O3 H). }
  assert (H5y : first_on_or_after df (to_datetime (start_5y w)) = None ->
                field (cagr_value libm_pow df end_date (start_5y w)) = None
                /\ field (trailing_value df (start_ytd w)) = None
                /\ field (trailing_value df (start_mtd w)) = None
                /\ field (trailing_value df (start_5d w)) = None).
  { intros H. split; [apply cagr_value_miss; exact H|].
    assert (Hy : first_on_or_after df (to_datetime (start_ytd w)) = None)
      by (apply (first_on_or_after_later df (to_datetime (start_5y w))); [lia | exact H]).
    destruct (Hytd Hy) as [A B]. split; [exact A|]. split; [exact B|].
    apply trailing_value_miss.
    apply (first_on_or_after_later df (to_datetime (start_5y w))); [lia | exact H]. }
  split; [exact Hytd|]. split; [exact H5y|].
  intros H. split; [apply cagr_value_miss; exact H|].
  apply H5y.
  apply (first_on_or_after_later df (to_datetime (start_10y w))); [lia | exact H].
Qed.

Lemma X6_witness :
  exists row,
    table_row no_libm "Index" "VIX" sample_now sample_windows frame_last_year
    = Ok (Some row)
    /\ fYTD row = None /\ fMTD row = None
    /\ to_datetime (start_10y sample_windows)
       < to_datetime (start_5y sample_windows).
Proof.
  destruct (X6_windows_nested no_libm "Index" "VIX" sample_now sample_windows
              frame_last_year)
    as ((Horder & _) & row & Hrow & Hytd & _);
    [ reflexivity | reflexivity
    | apply ascending_two; vm_compute; reflexivity
    | cbn; lia | ].
  exists row. split; [exact Hrow|].
  destruct (Hytd eq_refl) as [A B].
  split; [exact A|]. split; [exact B | exact Horder].
Defined.

(** The first row of a frame is the window row of every window that starts
    at or before it. *)
Lemma first_on_or_after_head first rest t :
  t <= index first -> first_on_or_after (first :: rest) t = Some first.
Proof.
  intros H. unfold first_on_or_after. cbn.
  replace (t <=? index first) with true by (symmetry; apply Z.leb_le; exact H).
  reflexivity.
Qed.

(** X7: when the history of a symbol starts at or after the 5Y start (less
    than five years of data), the 5Y and the 10Y CAGR are both computed from
    the close of the first row of the frame: the same price ratio, raised to
    the five-year and to the ten-year exponent. *)
Theorem X7_short_history_same_start_price :
  forall (libm_pow : float -> float -> float) (key name : string)
         (end_date : datetime) (w : windows) (first : PricePoint)
         (rest : DataFrame),
    valid_datetime end_date = true ->
    table_windows end_date = Ok w ->
    ascending (first :: rest) -> (1 <= length rest)%nat ->
    to_datetime (start_5y w) <= index first ->
    exists row,
      table_row libm_pow key name end_date w (first :: rest) = Ok (Some row)
      /\ let ratio :=
           (np_round (last_close (first :: rest)) 2 / close first)%float in
         f5Y row
         = field ((c_pow libm_pow ratio
                     (cagr_exponent end_date (start_5y w)) - 1) * 100)%float
         /\ f10Y row
            = field ((c_pow libm_pow ratio
                        (cagr_exponent end_date (start_10y w)) - 1) * 100)%float.
Proof.
  intros libm_pow key name end_date w first rest Hv Hw Hs Hlen Hfirst.
  destruct (window_order end_date w Hv Hw) as (O1 & _).
  exists (expected_row libm_pow key name end_date w (first :: rest)).
  split; [apply table_row_spec; try assumption; cbn; lia|].
  cbn [expected_row f5Y f10Y]. unfold cagr_value.
  rewrite !first_on_or_after_head by lia.
  split; reflexivity.
Qed.

Lemma X7_witness :
  exists row,
    table_row no_libm "Index" "VIX" sample_now sample_windows frame_rounding
    = Ok (Some row)
    /\ let ratio := (np_round (last_close frame_rounding) 2 / 0.75)%float in
       f5Y row
       = field ((c_pow no_libm ratio
                   (cagr_exponent sample_now (start_5y sample_windows)) - 1)
                * 100)%float
       /\ f10Y row
          = field ((c_pow no_libm ratio
                      (cagr_exponent sample_now (start_10y sample_windows)) - 1)
                   * 100)%float.
Proof.
  apply (X7_short_history_same_start_price no_libm "Index" "VIX" sample_now
           sample_windows (mk_point (day_start 2020 1 1) 0.75)
           [mk_point (day_start 2024 6 14) 0.7490234375]);
    [ reflexivity | reflexivity
    | apply ascending_two; vm_compute; reflexivity
    | cbn; lia | vm_compute; discriminate ].
Defined.

Lemma trailing_field_expected libm_pow key name end_date w df tw :
  trailing_field (expected_row libm_pow key name end_date w df) tw
  = field (trailing_value df (trailing_start w tw)).
Proof. destruct tw; reflexivity. Qed.

Lemma cagr_field_expected libm_pow key name end_date w df cw :
  cagr_field (expected_row libm_pow key name end_date w df) cw
  = field (cagr_value libm_pow df end_date (cagr_start w cw)).
Proof. destruct cw; reflexivity. Qed.

(** X8: when the first row at or after the start of a trailing window (5D,
    MTD, YTD) is the last row of the frame and its close is finite and not
    zero, the metric is present and is a zero: the latest close is compared
    with itself. *)
Theorem X8_window_holding_last_row_only :
  forall (libm_pow : float -> float -> float) (key name : string)
         (end_date : datetime) (w : windows) (df : DataFrame)
         (tw : trailing_window),
    valid_datetime end_date = true ->
    table_windows end_date = Ok w ->
    ascending df -> (2 <= length df)%nat ->
    first_on_or_after df (to_datetime (trailing_start w tw))
    = Some (last df (mk_point 0 nan)) ->
    is_finite (last_close df) = true -> is_zero (last_close df) = false ->
    exists row v,
      table_row libm_pow key name end_date w df = Ok (Some row)
      /\ trailing_field row tw = Some v /\ is_zero v = true.
Proof.
  intros libm_pow key name end_date w df tw Hv Hw Hs Hlen Hfirst Hf Hz.
  exists (expected_row libm_pow key name end_date w df).
  exists ((last_close df - last_close df) / last_close df * 100)%float.
  split; [apply table_row_spec; assumption|].
  rewrite trailing_field_expected. unfold trailing_value. rewrite Hfirst.
  fold (last_close df).
  pose proof (zero_change (last_close df) Hf Hz) as H0.
  split; [apply field_zero|]; exact H0.
Qed.

Lemma X8_witness :
  exists row v,
    table_row no_libm "Index" "VIX" sample_now sample_windows frame_rounding
    = Ok (Some row)
    /\ trailing_field row W5D = Some v /\ is_zero v = true.
Proof.
  apply (X8_window_holding_last_row_only no_libm "Index" "VIX" sample_now
           sample_windows frame_rounding W5D);
    [ reflexivity | reflexivity
    | apply ascending_two; vm_compute; reflexivity
    | cbn; lia | reflexivity | reflexivity | reflexivity ].
Defined.

(** X9: a frame with at least 2 rows whose first close is a zero is still
    plotted: the trace has one value per row, none of them finite (each is an
    infinity or NaN), and the first one is NaN. *)
Theorem X9_chart_zero_first_close :
  forall (name : string) (first : PricePoint) (rest : DataFrame),
    (1 <= length rest)%nat ->
    is_zero (close first) = true ->
    exists trace,
      chart_trace name (first :: rest) = Ok (Some trace)
      /\ x trace = map index (first :: rest)
      /\ length (y trace) = length (first :: rest)
      /\ hd_error (y trace) = Some nan
      /\ Forall (fun v => is_finite v = false) (y trace).
Proof.
  intros name first rest Hlen Hz.
  exists (normalized_trace name first rest).
  split; [apply chart_trace_spec; exact Hlen|].
  split; [reflexivity|].
  split; [cbn; rewrite length_map; reflexivity|].
  split.
  - cbn. rewrite zero_div_zero by assumption. reflexivity.
  - cbn [normalized_trace y]. apply Forall_forall. intros v Hin.
    apply in_map_iff in Hin as (p & <- & _).
    apply div_zero_not_finite. exact Hz.
Qed.

Lemma X9_witness :
  exists trace,
    chart_trace "S&P 500" frame_zero_close = Ok (Some trace)
    /\ x trace = map index frame_zero_close
    /\ length (y trace) = length frame_zero_close
    /\ hd_error (y trace) = Some nan
    /\ Forall (fun v => is_finite v = false) (y trace).
Proof.
  apply (X9_chart_zero_first_close "S&P 500"
           (mk_point (day_start 2020 1 1) 0)
           [mk_point (day_start 2024 6 14) 5]);
    [cbn; lia | reflexivity].
Defined.

(** X10: when the last close of a strictly ascending frame with at least 2
    rows is NaN, the symbol still gets its row: all five metrics are absent
    and the Value is NaN. *)
Theorem X10_nan_last_close :
  forall (libm_pow : float -> float -> float) (key name : string)
         (end_date : datetime) (w : windows) (df : DataFrame),
    valid_datetime end_date = true ->
    table_windows end_date = Ok w ->
    ascending df -> (2 <= length df)%nat ->
    is_nan (last_close df) = true ->
    exists row,
      table_row libm_pow key name end_date w df = Ok (Some row)
      /\ f5D row = None /\ fMTD row = None /\ fYTD row = None
      /\ f5Y row = None /\ f10Y row = None
      /\ is_nan (Value row) = true.
Proof.
  intros libm_pow key name end_date w df Hv Hw Hs Hlen Hnan.
  exists (expected_row libm_pow key name end_date w df).
  split; [apply table_row_spec; assumption|].
  apply is_nan_eq in Hnan.
  assert (Ht : forall start, field (trailing_value df start) = None).
  { intros start. unfold trailing_value. rewrite Hnan.
    destruct (first_on_or_after df _) as [p|]; [|reflexivity].
    rewrite nan_change. reflexivity. }
  assert (Hc : forall cw,
             field (cagr_value libm_pow df end_date (cagr_start w cw)) = None).
  { intros cw. unfold cagr_value. rewrite Hnan.
    destruct (first_on_or_after df _) as [p|]; [|reflexivity].
    change (np_round nan 2) with nan. rewrite nan_div.
    rewrite c_pow_nan by (apply cagr_exponent_root; assumption).
    reflexivity. }
  cbn [expected_row f5D fMTD fYTD f5Y f10Y Value].
  rewrite !Ht, (Hc W5Y : field (cagr_value _ _ _ (start_5y w)) = None),
    (Hc W10Y : field (cagr_value _ _ _ (start_10y w)) = None), Hnan.
  repeat split; reflexivity.
Qed.

Lemma X10_witness :
  exists row,
    table_row no_libm "Index" "VIX" sample_now sample_windows frame_nan_close
    = Ok (Some row)
    /\ f5D row = None /\ fMTD row = None /\ fYTD row = None
    /\ f5Y row = None /\ f10Y row = None
    /\ is_nan (Value row) = true.
Proof.
  apply (X10_nan_last_close no_libm "Index" "VIX" sample_now sample_windows
           frame_nan_close);
    [ reflexivity | reflexivity
    | apply ascending_two; vm_compute; reflexivity
    | cbn; lia | reflexivity ].
Defined.

(** X11: when the last close rounds to 0.00 at 2 decimals, the Value of the
    row is a zero and a CAGR window (5Y, 10Y) whose window close is neither a
    zero nor NaN shows -100.0, whatever that close is. *)
Theorem X11_price_rounding_to_zero :
  forall (libm_pow : float -> float -> float) (key name : string)
         (end_date : datetime) (w : windows) (df : DataFrame)
         (cw : cagr_window) (p : PricePoint),
    valid_datetime end_date = true ->
    table_windows end_date = Ok w ->
    ascending df -> (2 <= length df)%nat ->
    is_zero (np_round (last_close df) 2) = true ->
    first_on_or_after df (to_datetime (cagr_start w cw)) = Some p ->
    is_nan (close p) = false -> is_zero (close p) = false ->
    exists row,
      table_row libm_pow key name end_date w df = Ok (Some row)
      /\ is_zero (Value row) = true
      /\ cagr_field row cw = Some (-100)%float.
Proof.
  intros libm_pow key name end_date w df cw p Hv Hw Hs Hlen Hz Hp Hn Hc.
  exists (expected_row libm_pow key name end_date w df).
  split; [apply table_row_spec; assumption|].
  split.
  - cbn [expected_row Value].
    destruct (is_zero_SF _ Hz) as (s & Hs0).
    unfold py_round. rewrite Hs0. exact Hz.
  - rewrite cagr_field_expected.
    unfold cagr_value. rewrite Hp.
    rewrite (c_pow_zero libm_pow _ _ (cagr_exponent_root end_date w cw Hv Hw)
               (zero_div _ _ Hz Hn Hc)).
    vm_compute. reflexivity.
Qed.

Lemma X11_witness :
  exists row,
    table_row no_libm "Index" "VIX" sample_now sample_windows
      frame_small_close = Ok (Some row)
    /\ is_zero (Value row) = true
    /\ cagr_field row W5Y = Some (-100)%float.
Proof.
  apply (X11_price_rounding_to_zero no_libm "Index" "VIX" sample_now
           sample_windows frame_small_close W5Y
           (mk_point (day_start 2020 1 1) 5));
    [ reflexivity | reflexivity
    | apply ascending_two; vm_compute; reflexivity
    | cbn; lia | reflexivity | reflexivity | reflexivity | reflexivity ].
Defined.

(** X12: a CAGR window (5Y, 10Y) whose window close is a zero does not give
    an absent metric: when the rounded latest price is neither a zero nor
    NaN, the field of the row is plus infinity, whatever the sign of the
    price and of the zero. *)
Theorem X12_cagr_zero_window_close :
  forall (libm_pow : float -> float -> float) (key name : string)
         (end_date : datetime) (w : windows) (df : DataFrame)
         (cw : cagr_window) (p : PricePoint),
    valid_datetime end_date = true ->
    table_windows end_date = Ok w ->
    ascending df -> (2 <= length df)%nat ->
    first_on_or_after df (to_datetime (cagr_start w cw)) = Some p ->
    is_zero (close p) = true ->
    is_nan (np_round (last_close df) 2) = false ->
    is_zero (np_round (last_close df) 2) = false ->
    exists row,
      table_row libm_pow key name end_date w df = Ok (Some row)
      /\ cagr_field row cw = Some infinity.
Proof.
  intros libm_pow key name end_date w df cw p Hv Hw Hs Hlen Hp Hz Hn Hl.
  exists (expected_row libm_pow key name end_date w df).
  split; [apply table_row_spec; assumption|].
  rewrite cagr_field_expected.
  unfold cagr_value. rewrite Hp.
  rewrite (c_pow_infinite libm_pow _ _
             (cagr_exponent_root end_date w cw Hv Hw)
             (div_zero_infinite _ _ Hn Hl Hz)).
  vm_compute. reflexivity.
Qed.

Lemma X12_witness :
  exists row,
    table_row no_libm "Index" "VIX" sample_now sample_windows frame_zero_close
    = Ok (Some row)
    /\ cagr_field row W10Y = Some infinity.
Proof.
  apply (X12_cagr_zero_window_close no_libm "Index" "VIX" sample_now
           sample_windows frame_zero_close W10Y
           (mk_point (day_start 2020 1 1) 0));
    [ reflexivity | reflexivity
    | apply ascending_two; vm_compute; reflexivity
    | cbn; lia | reflexivity | reflexivity | reflexivity | reflexivity ].
Defined.

(** X13: a trailing window (5D, MTD, YTD) whose window close is a zero does
    not give an absent metric either: when the last close is neither a zero
    nor NaN, the field of the row holds an infinity. *)
Theorem X13_trailing_zero_window_close :
  forall (libm_pow : float -> float -> float) (key name : string)
         (end_date : datetime) (w : windows) (df : DataFrame)
         (tw : trailing_window) (p : PricePoint),
    valid_datetime end_date = true ->
    table_windows end_date = Ok w ->
    ascending df -> (2 <= length df)%nat ->
    first_on_or_after df (to_datetime (trailing_start w tw)) = Some p ->
    is_zero (close p) = true ->
    is_nan (last_close df) = false -> is_zero (last_close df) = false ->
    exists row v,
      table_row libm_pow key name end_date w df = Ok (Some row)
      /\ trailing_field row tw = Some v /\ is_infinity v = true.
Proof.
  intros libm_pow key name end_date w df tw p Hv Hw Hs Hlen Hp Hz Hn Hl.
  exists (expected_row libm_pow key name end_date w df).
  exists ((last_close df - close p) / close p * 100)%float.
  split; [apply table_row_spec; assumption|].
  rewrite trailing_field_expected. unfold trailing_value. rewrite Hp.
  pose proof (change_from_zero_infinite _ _ Hn Hl Hz) as Hi.
  split; [apply field_infinite|]; exact Hi.
Qed.

Lemma X13_witness :
  exists row v,
    table_row no_libm "Index" "VIX" sample_now sample_windows
      frame_zero_this_year = Ok (Some row)
    /\ trailing_field row WYTD = Some v /\ is_infinity v = true.
Proof.
  apply (X13_trailing_zero_window_close no_libm "Index" "VIX" sample_now
           sample_windows frame_zero_this_year WYTD
           (mk_point (day_start 2024 1 2) 0));
    [ reflexivity | reflexivity
    | apply ascending_two; vm_compute; reflexivity
    | cbn; lia | reflexivity | reflexivity | reflexivity | reflexivity ].
Defined.

(** ** Repeated timestamps *)

(** The change over a trailing window on any frame: the label of the window
    row selects a scalar unless another row carries it too. *)
Lemma change_pct_cases df start :
  df <> [] ->
  change_pct df start
  = if repeated_label df start then Raise ValueError
    else Ok (trailing_value df start).
Proof.
  intros Hne. unfold change_pct, trailing_value, repeated_label, label_count.
  rewrite any_mask_ge, iloc_first_select.
  destruct (first_on_or_after df (to_datetime start)) as [p|] eqn:Hf;
    [|reflexivity].
  apply first_on_or_after_In in Hf as [Hin _].
  cbn [bind]. rewrite (iloc_last_nonempty df Hne). cbn [bind].
  unfold loc_close.
  assert (Hp : In p (filter (fun q => index q =? index p) df))
    by (apply filter_In; split; [exact Hin | apply Z.eqb_refl]).
  destruct (filter (fun q => index q =? index p) df) as [|q [|q' l]].
  - destruct Hp.
  - destruct Hp as [->|[]]. reflexivity.
  - reflexivity.
Qed.

(** The row builder on any frame with at least 2 rows. *)
Lemma table_row_cases libm_pow key name end_date w df :
  valid_datetime end_date = true ->
  table_windows end_date = Ok w ->
  (2 <= length df)%nat ->
  table_row libm_pow key name end_date w df
  = if repeated_label df (start_5d w) || repeated_label df (start_mtd w)
       || repeated_label df (start_ytd w)
    then Raise ValueError
    else Ok (Some (expected_row libm_pow key name end_date w df)).
Proof.
  intros Hv Hw Hlen.
  pose proof (length_two_nonempty df Hlen) as Hne.
  unfold table_row.
  replace ((length df =? 0)%nat || (length df <? 2)%nat) with false.
  2:{ symmetry. apply orb_false_iff. split.
      - apply Nat.eqb_neq. lia.
      - apply Nat.ltb_ge. lia. }
  rewrite (iloc_last_nonempty df Hne). cbn [bind].
  rewrite !change_pct_cases by assumption.
  destruct (repeated_label df (start_5d w)); [reflexivity|].
  destruct (repeated_label df (start_mtd w)); [reflexivity|].
  destruct (repeated_label df (start_ytd w)); [reflexivity|].
  cbn [bind orb].
  rewrite (cagr_spec libm_pow df end_date w W5Y _ Hv Hw).
  rewrite (cagr_spec libm_pow df end_date w W10Y _ Hv Hw).
  reflexivity.
Qed.

(** X14: on every frame with at least 2 rows, ascending or not, the row
    builder raises exactly when the first row at or after the start of a
    trailing window (5D, MTD, YTD) carries a timestamp that another row
    carries too, and then it raises [ValueError]; otherwise it returns the
    row.  A symbol with such a frame is left out of the table, while the
    chart loop, which does not look rows up by label, still plots it. *)
Theorem X14_repeated_timestamp :
  forall (libm_pow : float -> float -> float) (key name : string)
         (end_date : datetime) (w : windows) (df : DataFrame),
    valid_datetime end_date = true ->
    table_windows end_date = Ok w ->
    (2 <= length df)%nat ->
    table_row libm_pow key name end_date w df
    = (if repeated_label df (start_5d w) || repeated_label df (start_mtd w)
          || repeated_label df (start_ytd w)
       then Raise ValueError
       else Ok (Some (expected_row libm_pow key name end_date w df)))
    /\ (forall (historical : string -> Z * Z * Z -> exc DataFrame)
               (symbol : string) (results : list MetricRow),
          historical symbol (strftime_ymd (start_10y w)) = Ok df ->
          repeated_label df (start_5d w) || repeated_label df (start_mtd w)
          || repeated_label df (start_ytd w) = true ->
          table_step libm_pow historical key end_date w results (symbol, name)
          = results)
    /\ (forall (historical : string -> Z * Z * Z -> exc DataFrame)
               (symbol : string) (start_date_str : Z * Z * Z)
               (figure : list Scatter),
          historical symbol start_date_str = Ok df ->
          exists trace,
            chart_step historical start_date_str figure (symbol, name)
            = figure ++ [trace]
            /\ x trace = map index df).
Proof.
  intros libm_pow key name end_date w df Hv Hw Hlen.
  pose proof (table_row_cases libm_pow key name end_date w df Hv Hw Hlen) as Hr.
  split; [exact Hr|]. split.
  - intros historical symbol results Hf Hrep. unfold table_step.
    rewrite Hf. cbn [bind]. rewrite Hr, Hrep. reflexivity.
  - intros historical symbol start_date_str figure Hf.
    destruct df as [|first [|second rest]]; try (cbn in Hlen; lia).
    exists (normalized_trace name first (second :: rest)).
    split; [|reflexivity].
    unfold chart_step. rewrite Hf. cbn [bind].
    rewrite chart_trace_spec by (cbn; lia). reflexivity.
Qed.

Lemma X14_witness :
  table_row no_libm "Index" "VIX" sample_now sample_windows frame_repeated
  = Raise ValueError
  /\ table_step no_libm (fun _ _ => Ok frame_repeated) "Index" sample_now
       sample_windows [] ("^VIX", "VIX")%string = []
  /\ exists trace,
       chart_step (fun _ _ => Ok frame_repeated) (2024, 1, 1) []
         ("^VIX", "VIX")%string = [trace]
       /\ x trace = map index frame_repeated.
Proof.
  destruct (X14_repeated_timestamp no_libm "Index" "VIX" sample_now
              sample_windows frame_repeated)
    as (Hrow & Hstep & Hchart);
    [reflexivity | reflexivity | cbn; lia |].
  split; [exact Hrow|]. split.
  - apply Hstep; reflexivity.
  - apply (Hchart (fun _ _ => Ok frame_repeated) "^VIX"%string (2024, 1, 1) []).
    reflexivity.
Defined.

(** ** What the provider is asked *)

Section ProviderQueries.

Variable libm_pow : float -> float -> float.
Variables h1 h2 : string -> Z * Z * Z -> exc DataFrame.

Lemma table_fold_ext key end_date w symbols :
  agree_on h1 h2 symbols (strftime_ymd (start_10y w)) ->
  forall results,
    fold_left (table_step libm_pow h1 key end_date w) symbols results
    = fold_left (table_step libm_pow h2 key end_date w) symbols results.
Proof.
  induction symbols as [|[symbol name] symbols IH]; intros Ha results;
    [reflexivity|].
  cbn [fold_left].
  assert (Hs : table_step libm_pow h1 key end_date w results (symbol, name)
               = table_step libm_pow h2 key end_date w results (symbol, name)).
  { unfold table_step. rewrite (Ha symbol name (or_introl eq_refl)).
    reflexivity. }
  rewrite Hs. apply IH.
  intros s n Hin. apply (Ha s n). right. exact Hin.
Qed.

Lemma chart_fold_ext start_date_str symbols :
  agree_on h1 h2 symbols start_date_str ->
  forall figure,
    fold_left (chart_step h1 start_date_str) symbols figure
    = fold_left (chart_step h2 start_date_str) symbols figure.
Proof.
  induction symbols as [|[symbol name] symbols IH]; intros Ha figure;
    [reflexivity|].
  cbn [fold_left].
  assert (Hs : chart_step h1 start_date_str figure (symbol, name)
               = chart_step h2 start_date_str figure (symbol, name)).
  { unfold chart_step. rewrite (Ha symbol name (or_introl eq_refl)).
    reflexivity. }
  rewrite Hs. apply IH.
  intros s n Hin. apply (Ha s n). right. exact Hin.
Qed.

End ProviderQueries.

(** X15: an endpoint looks at the provider only through the symbols of its
    basket and one start date: a table endpoint at the date ten years before
    now, a chart endpoint at the date of the start it resolved.  Two
    providers that answer alike for those symbols and that date give the
    same table, and the same chart. *)
Theorem X15_provider_queries :
  forall (libm_pow : float -> float -> float)
         (h1 h2 : string -> Z * Z * Z -> exc DataFrame)
         (key : string) (symbols : list (string * string))
         (end_date : datetime) (w : windows)
         (start_date theme : option string) (start : datetime),
    table_windows end_date = Ok w ->
    chart_start end_date (with_default "ytd" start_date) = Ok start ->
    (agree_on h1 h2 symbols
       (year end_date - 10, month end_date, day end_date) ->
     table_endpoint libm_pow h1 key symbols end_date
     = table_endpoint libm_pow h2 key symbols end_date)
    /\ (agree_on h1 h2 symbols (year start, month start, day start) ->
        performance_endpoint h1 symbols end_date start_date theme
        = performance_endpoint h2 symbols end_date start_date theme).
Proof.
  intros libm_pow h1 h2 key symbols end_date w start_date theme start Hw Hs.
  split.
  - intros Ha. unfold table_endpoint. rewrite Hw. cbn [bind]. f_equal.
    apply table_fold_ext.
    destruct (table_windows_Ok _ _ Hw) as (_ & _ & _ & _ & E10 & _).
    rewrite E10. exact Ha.
  - intros Ha. unfold performance_endpoint. rewrite Hs. cbn [bind]. f_equal.
    apply chart_fold_ext. exact Ha.
Qed.

Lemma X15_witness :
  get_volatility_table no_libm sample_historical sample_now
  = get_volatility_table no_libm volatility_historical sample_now
  /\ get_volatility_performance sample_historical sample_now (Some "5Y"%string)
       None
     = get_volatility_performance volatility_historical sample_now
         (Some "5Y"%string) None.
Proof.
  destruct (X15_provider_queries no_libm sample_historical
              volatility_historical "Index"
              [("^VIX", "VIX"); ("MOVE", "MOVE")]%string sample_now
              sample_windows (Some "5Y"%string) None
              (mk_datetime 2019 6 15 0 0 0 0) eq_refl eq_refl)
    as [Htable Hchart].
  split.
  - apply Htable. intros symbol name [[= <- <-]|[[= <- <-]|[]]]; reflexivity.
  - apply Hchart. intros symbol name [[= <- <-]|[[= <- <-]|[]]]; reflexivity.
Defined.
